(** * infoset: the generic daemon controller (infoset/utils/daemon.py)

    A shallow embedding of the [Daemon] class: the double-fork
    [daemonize], the PID-file and lock-file helpers, and the control
    surface [start], [stop], [force], [status].

    The class talks to the operating system all the time, so the
    embedding is a small state-and-exception monad over an explicit
    model of the machine: a flat file system of regular files, a table
    of signal targets, and the trace of the calls made.  The rest of
    the system (the worker that holds the lock file, the processes that
    come and go) moves while the caller sleeps; forks and the body of
    [run()] are given from outside.  File contents are ASCII text. *)

From Stdlib Require Import ZArith Ascii String List Lia Bool.
From stdpp Require Import base option gmap strings.

Local Open Scope Z_scope.

(** ** Python primitives used by the class *)

Module Py.

(** [str.isspace] on the ASCII range: TAB LF VT FF CR, FS GS RS US, SPACE. *)
Definition is_space (c : ascii) : bool :=
  let n := nat_of_ascii c in
  ((9 <=? n)%nat && (n <=? 13)%nat) || ((28 <=? n)%nat && (n <=? 32)%nat).

Fixpoint lstrip (s : string) : string :=
  match s with
  | String c r => if is_space c then lstrip r else s
  | EmptyString => EmptyString
  end.

Fixpoint rstrip (s : string) : string :=
  match s with
  | String c r =>
      match rstrip r with
      | EmptyString => if is_space c then EmptyString else String c EmptyString
      | r' => String c r'
      end
  | EmptyString => EmptyString
  end.

(** [s.strip()] *)
Definition strip (s : string) : string := rstrip (lstrip s).

Definition digit_val (c : ascii) : option Z :=
  let n := nat_of_ascii c in
  if ((48 <=? n)%nat && (n <=? 57)%nat)%bool
  then Some (Z.of_nat (n - 48)) else None.

(** The digits after the first one; a single underscore may sit between
    two digits. *)
Fixpoint int_digits (acc : Z) (s : string) : option Z :=
  match s with
  | EmptyString => Some acc
  | String c r =>
      if Ascii.eqb c "_"%char then
        match r with
        | String d r' =>
            match digit_val d with
            | Some v => int_digits (10 * acc + v) r'
            | None => None
            end
        | EmptyString => None
        end
      else
        match digit_val c with
        | Some v => int_digits (10 * acc + v) r
        | None => None
        end
  end.

Definition int_unsigned (s : string) : option Z :=
  match s with
  | String c r =>
      match digit_val c with
      | Some v => int_digits v r
      | None => None
      end
  | EmptyString => None
  end.

(** [int(s)] in base 10 on ASCII text: surrounding white space is
    dropped, one sign is allowed, then digits.  [None] stands for
    [ValueError]. *)
Definition int (s : string) : option Z :=
  match strip s with
  | String c r =>
      if Ascii.eqb c "-"%char then option_map Z.opp (int_unsigned r)
      else if Ascii.eqb c "+"%char then int_unsigned r
      else int_unsigned (String c r)
  | EmptyString => None
  end.

Definition digit_char (d : Z) : ascii := ascii_of_nat (48 + Z.to_nat d).

Fixpoint dec_go (fuel : nat) (n : Z) (acc : string) : string :=
  match fuel with
  | O => acc
  | S f =>
      let acc' := String (digit_char (n mod 10)) acc in
      if n / 10 =? 0 then acc' else dec_go f (n / 10) acc'
  end.

Definition dec (n : Z) : string :=
  dec_go (S (Z.to_nat (Z.log2 n))) n EmptyString.

(** [str(n)] for an integer. *)
Definition str (n : Z) : string :=
  if n <? 0 then String "-"%char (dec (- n)) else dec n.

(** [s.find(sub)]: the first index of [sub] in [s], or -1. *)
Definition find (s sub : string) : Z :=
  match String.index 0 sub s with
  | Some i => Z.of_nat i
  | None => -1
  end.

(** Truth value of an optional integer: [None] and [0] are false. *)
Definition truthy (p : option Z) : bool :=
  match p with
  | Some n => negb (n =? 0)
  | None => false
  end.

End Py.

(** ** The machine the daemon runs on *)

(** The error numbers the calls below can fail with. *)
Inductive errno := EPERM | ENOENT | ESRCH | EAGAIN | ENOMEM | EACCES.

Definition errno_code (e : errno) : Z :=
  match e with
  | EPERM => 1 | ENOENT => 2 | ESRCH => 3 | EAGAIN => 11 | ENOMEM => 12
  | EACCES => 13
  end.

Definition strerror (e : errno) : string :=
  match e with
  | EPERM => "Operation not permitted"
  | ENOENT => "No such file or directory"
  | ESRCH => "No such process"
  | EAGAIN => "Resource temporarily unavailable"
  | ENOMEM => "Cannot allocate memory"
  | EACCES => "Permission denied"
  end.

(** [str(err)] and [str(err.args)] of the [OSError] built from an errno. *)
Definition str_oserror (e : errno) : string :=
  "[Errno " +:+ Py.str (errno_code e) +:+ "] " +:+ strerror e.

Definition str_args (e : errno) : string :=
  "(" +:+ Py.str (errno_code e) +:+ ", '" +:+ strerror e +:+ "')".

Inductive exn :=
| OSError (e : errno)
| ValueError
| OverflowError
| SystemExit (status : Z)
| Fatal (code : Z) (msg : string).

(** What [os.fork()] gives in the process that is being followed: the
    parent sees the child's id, the child sees 0 and has an id of its
    own, or the call fails. *)
Inductive fork_result :=
| ForkParent (child : positive)
| ForkChild (me : positive)
| ForkError (e : errno).

Inductive level := Warn | Die | Quiet.
Inductive stream := Stdin | Stdout | Stderr.

Inductive event :=
| EvRead (path : string) (found : bool)
| EvWrite (path content : string)
| EvOpenFailed (path : string) (err : errno)
| EvExists (path : string) (b : bool)
| EvRemove (path : string)
| EvKill (pid : Z) (failure : option errno)
| EvSleep
| EvFork (r : fork_result)
| EvChdir (path : string)
| EvSetsid
| EvUmask (mask : Z)
| EvFlush (s : stream)
| EvOpenNull
| EvDup2 (s : stream)
| EvAtexit
| EvLog (l : level) (code : Z) (msg : string)
| EvPrint (msg : string)
| EvRun.

(** Files (path to content) and the targets [os.kill] can name; a target
    is mapped to [true] when the caller is allowed to signal it. *)
Record machine := Machine {
  fs : gmap string string;
  procs : gmap Z bool
}.

(** [trace] has the newest call first. *)
Record world := World {
  os : machine;
  self : positive;
  ticks : nat;
  nforks : nat;
  trace : list event
}.

(** How a call ends: normally, with an exception, or not yet ([Spin]: the
    loop was still going when the fuel of the model ran out). *)
Inductive result (A : Type) :=
| Ok (a : A)
| Raise (e : exn)
| Spin.
Arguments Ok {A} a.
Arguments Raise {A} e.
Arguments Spin {A}.

(** Everything the class does not decide itself: what the rest of the
    system does to the machine during the k-th sleep, how the k-th fork
    turns out, the body of [run()] supplied by the subclass, and whether
    the system lets a path be opened for writing on a given machine (a
    missing directory or a lack of permission makes [open] raise an
    [OSError]). *)
Record environment := Environment {
  others : nat -> machine -> machine;
  fork_outcome : nat -> fork_result;
  payload : machine -> result unit * machine;
  open_failure : machine -> string -> option errno
}.

(** The constructor arguments of [Daemon.__init__]. *)
Record Daemon := MkDaemon {
  pidfile : string;
  lockfile : option string
}.

(** ** State and exceptions *)

Definition M (A : Type) : Type := world -> result A * world.

Definition ret {A} (a : A) : M A := fun w => (Ok a, w).

Definition bind {A B} (m : M A) (k : A -> M B) : M B :=
  fun w =>
    match m w with
    | (Ok a, w') => k a w'
    | (Raise e, w') => (Raise e, w')
    | (Spin, w') => (Spin, w')
    end.

Definition raise {A} (e : exn) : M A := fun w => (Raise e, w).

(** [try: body  except ...: handler]; a handler that does not match
    re-raises. *)
Definition try_except {A} (body : M A) (handler : exn -> M A) : M A :=
  fun w =>
    match body w with
    | (Raise e, w') => handler e w'
    | r => r
    end.

Definition push (e : event) (w : world) : world :=
  World (os w) (self w) (ticks w) (nforks w) (e :: trace w).

Definition emit (e : event) : M unit := fun w => (Ok tt, push e w).

Declare Scope daemon_scope.
Delimit Scope daemon_scope with daemon.
Notation "x <- c1 ;; c2" := (bind c1 (fun x => c2))
  (at level 100, c1 at next level, right associativity) : daemon_scope.
Notation "c1 ;; c2" := (bind c1 (fun _ => c2))
  (at level 100, right associativity) : daemon_scope.
Local Open Scope daemon_scope.

Definition nl : string := String (ascii_of_nat 10) EmptyString.
Definition dquote : string := String (ascii_of_nat 34) EmptyString.

(** The range of a C [int], which is what [os.kill] converts its first
    argument to. *)
Definition pid_t_range (pid : Z) : bool :=
  (- 2 ^ 31 <=? pid) && (pid <? 2 ^ 31).

(** ** System calls and library calls *)

Section Calls.

Variable E : environment.

(** [open(path, 'r')] followed by [read()]. *)
Definition open_read (path : string) : M string :=
  fun w =>
    match fs (os w) !! path with
    | Some c => (Ok c, push (EvRead path true) w)
    | None => (Raise (OSError ENOENT), push (EvRead path false) w)
    end.

(** [open(path, 'w+')] followed by [write(content)].  The [open] raises
    an [OSError] when the system refuses it, and then nothing is
    written. *)
Definition open_write (path content : string) : M unit :=
  fun w =>
    match open_failure E (os w) path with
    | Some err => (Raise (OSError err), push (EvOpenFailed path err) w)
    | None =>
        (Ok tt,
         World (Machine (<[path := content]> (fs (os w))) (procs (os w)))
               (self w) (ticks w) (nforks w) (EvWrite path content :: trace w))
    end.

Definition os_path_exists (path : string) : M bool :=
  fun w =>
    let b := bool_decide (is_Some (fs (os w) !! path)) in
    (Ok b, push (EvExists path b) w).

Definition os_remove (path : string) : M unit :=
  fun w =>
    match fs (os w) !! path with
    | Some _ =>
        (Ok tt,
         World (Machine (delete path (fs (os w))) (procs (os w)))
               (self w) (ticks w) (nforks w) (EvRemove path :: trace w))
    | None => (Raise (OSError ENOENT), w)
    end.

(** [os.kill(pid, signal.SIGTERM)].  What the signal does to its target
    is the target's business and shows, if at all, at a later sleep. *)
Definition os_kill (pid : Z) : M unit :=
  fun w =>
    if pid_t_range pid then
      match procs (os w) !! pid with
      | Some true => (Ok tt, push (EvKill pid None) w)
      | Some false => (Raise (OSError EPERM), push (EvKill pid (Some EPERM)) w)
      | None => (Raise (OSError ESRCH), push (EvKill pid (Some ESRCH)) w)
      end
    else (Raise OverflowError, w).

(** [time.sleep(0.3)]: the caller blocks and the others move. *)
Definition time_sleep : M unit :=
  fun w =>
    (Ok tt,
     World (others E (ticks w) (os w)) (self w) (S (ticks w)) (nforks w)
           (EvSleep :: trace w)).

Definition os_fork : M Z :=
  fun w =>
    let r := fork_outcome E (nforks w) in
    match r with
    | ForkParent child =>
        (Ok (Z.pos child),
         World (os w) (self w) (ticks w) (S (nforks w)) (EvFork r :: trace w))
    | ForkChild me =>
        (Ok 0,
         World (os w) me (ticks w) (S (nforks w)) (EvFork r :: trace w))
    | ForkError e =>
        (Raise (OSError e),
         World (os w) (self w) (ticks w) (S (nforks w)) (EvFork r :: trace w))
    end.

Definition os_getpid : M Z := fun w => (Ok (Z.pos (self w)), w).

Definition sys_exit (status : Z) : M unit := raise (SystemExit status).

Definition os_chdir (path : string) : M unit := emit (EvChdir path).
Definition os_setsid : M unit := emit EvSetsid.
Definition os_umask (mask : Z) : M unit := emit (EvUmask mask).
Definition flush (s : stream) : M unit := emit (EvFlush s).
Definition open_devnull : M unit := emit EvOpenNull.
Definition os_dup2 (s : stream) : M unit := emit (EvDup2 s).
Definition atexit_register_delpid : M unit := emit EvAtexit.
Definition print (msg : string) : M unit := emit (EvPrint msg).

(** Modelled from the spec: [log.log2warn] of infoset/utils/log.py, which
    is not among the sources.  The spec has it report and return ("emit
    a warning, and return successfully"). *)
Definition log2warn (code : Z) (msg : string) : M unit := emit (EvLog Warn code msg).

(** Modelled from the spec: [log.log2quiet] of infoset/utils/log.py,
    which is not among the sources.  It records a message and returns;
    the spec has [start] go on to [run()] after it. *)
Definition log2quiet (code : Z) (msg : string) : M unit := emit (EvLog Quiet code msg).

(** Modelled from the spec: [log.log2die] of infoset/utils/log.py, which
    is not among the sources.  The spec has it report and abort the
    calling process ("process aborts immediately", nonzero exit code). *)
Definition log2die {A} (code : Z) (msg : string) : M A :=
  fun w => (Raise (Fatal code msg), push (EvLog Die code msg) w).

(** The subclass's [run()]: it works on the machine and leaves the
    bookkeeping of the model alone. *)
Definition run : M unit :=
  fun w =>
    let '(r, m) := payload E (os w) in
    (r, World m (self w) (ticks w) (nforks w) (EvRun :: trace w)).

End Calls.

(** ** class Daemon *)

Section Controller.

Variable E : environment.
Variable d : Daemon.

(** The [try] block at the head of both [start] and [stop]:
    [pid = int(pf_handle.read().strip())], and [pid = None] on an
    [IOError]. *)
Definition read_pid : M (option Z) :=
  try_except
    (c <- open_read (pidfile d) ;;
     match Py.int (Py.strip c) with
     | Some n => ret (Some n)
     | None => raise ValueError
     end)
    (fun e =>
       match e with
       | OSError _ => ret None
       | _ => raise e
       end).

Definition fork1_message (err : errno) : string :=
  ("Daemon fork #1 failed: " +:+ str_oserror err) +:+ " - PID file: " +:+ pidfile d.

Definition fork2_message (err : errno) : string :=
  ("Daemon fork #2 failed: " +:+ str_oserror err) +:+ " - PID file: " +:+ pidfile d.

Definition daemonize : M unit :=
  try_except
    (pid <- os_fork E ;;
     if 0 <? pid then sys_exit 0 else ret tt)
    (fun e =>
       match e with
       | OSError err => log2die 1060 (fork1_message err)
       | _ => raise e
       end) ;;
  os_chdir "/" ;;
  os_setsid ;;
  os_umask 0 ;;
  try_except
    (pid <- os_fork E ;;
     if 0 <? pid then sys_exit 0 else ret tt)
    (fun e =>
       match e with
       | OSError err => log2die 1061 (fork2_message err)
       | _ => raise e
       end) ;;
  flush Stdout ;;
  flush Stderr ;;
  open_devnull ;;
  open_devnull ;;
  open_devnull ;;
  os_dup2 Stdin ;;
  os_dup2 Stdout ;;
  os_dup2 Stderr ;;
  atexit_register_delpid ;;
  pid <- os_getpid ;;
  open_write E (pidfile d) (Py.str pid +:+ nl).

Definition delpid : M unit :=
  b <- os_path_exists (pidfile d) ;;
  if b then os_remove (pidfile d) else ret tt.

Definition dellock : M unit :=
  match lockfile d with
  | Some l =>
      b <- os_path_exists l ;;
      if b then os_remove l else ret tt
  | None => ret tt
  end.

Definition exists_message : string :=
  "PID file: " +:+ pidfile d +:+ " already exists. Daemon already running?".

Definition started_message : string :=
  "Daemon Started - PID file: " +:+ pidfile d.

Definition start : M unit :=
  pid <- read_pid ;;
  (if Py.truthy pid then log2die 1062 exists_message else ret tt) ;;
  daemonize ;;
  log2quiet 1070 started_message ;;
  run E.

(** One turn of [while 1]; [continue] skips the sleep that ends it. *)
Definition iteration (pid : Z) : M unit :=
  again <- match lockfile d with
           | None => os_kill pid ;; ret false
           | Some l =>
               time_sleep E ;;
               b <- os_path_exists l ;;
               if b then ret true else (os_kill pid ;; ret false)
           end ;;
  if again then ret tt else time_sleep E.

(** [while 1: ...] has no exit of its own; the model gives it a number
    of turns and reports [Spin] when they are used up. *)
Fixpoint kill_loop (fuel : nat) (pid : Z) : M unit :=
  match fuel with
  | O => fun w => (Spin, w)
  | S f => iteration pid ;; kill_loop f pid
  end.

Definition missing_message : string :=
  "PID file: " +:+ pidfile d +:+ " does not exist. Daemon not running?".

Definition signal_message (err : errno) : string :=
  str_args err +:+ " - PID file: " +:+ pidfile d.

Definition unknown_message : string :=
  "Unknown daemon " +:+ dquote +:+ "stop" +:+ dquote +:+
  " error for PID file: " +:+ pidfile d.

Definition stopped_message : string :=
  "Daemon Stopped - PID file: " +:+ pidfile d.

(** [stop] from "Try killing the daemon process" on, for the [pid] that
    was read. *)
Definition terminate (fuel : nat) (pid : Z) : M unit :=
  try_except
    (kill_loop fuel pid)
    (fun e =>
       match e with
       | OSError err =>
           if 0 <? Py.find (str_args err) "No such process"
           then delpid ;; dellock
           else log2die 1068 (signal_message err)
       | _ => log2die 1066 unknown_message
       end) ;;
  delpid ;;
  dellock ;;
  log2quiet 1071 stopped_message.

Definition stop (fuel : nat) : M unit :=
  pid <- read_pid ;;
  match pid with
  | Some p =>
      if negb (Py.truthy pid) then log2warn 1063 missing_message
      else terminate fuel p
  | None => log2warn 1063 missing_message
  end.

Definition force (fuel : nat) : M unit :=
  dellock ;;
  stop fuel.

Definition restart (fuel : nat) : M unit :=
  stop fuel ;;
  start.

Definition status : M unit :=
  b <- os_path_exists (pidfile d) ;;
  if b then print "Daemon is running" else print "Daemon is stopped".

End Controller.

(** ** Notions used to state and prove the properties *)

(** A string of decimal digits. *)
Fixpoint digits (s : string) : Prop :=
  match s with
  | EmptyString => True
  | String c r => (exists v, 0 <= v < 10 /\ c = Py.digit_char v) /\ digits r
  end.

(** Removing a file if it is there: the outcome of [delpid], and of
    [dellock] when a lock file is configured. *)
Definition removal (path : string) (w : world) : world :=
  match fs (os w) !! path with
  | Some _ =>
      World (Machine (delete path (fs (os w))) (procs (os w)))
            (self w) (ticks w) (nforks w)
            (EvRemove path :: EvExists path true :: trace w)
  | None => push (EvExists path false) w
  end.

Definition after_fork (r : fork_result) (w : world) : world :=
  World (os w)
        (match r with ForkChild me => me | _ => self w end)
        (ticks w) (S (nforks w)) (EvFork r :: trace w).

Definition detach_events : list event :=
  [EvUmask 0; EvSetsid; EvChdir "/"].

Definition redirect_events : list event :=
  [EvAtexit; EvDup2 Stderr; EvDup2 Stdout; EvDup2 Stdin;
   EvOpenNull; EvOpenNull; EvOpenNull; EvFlush Stderr; EvFlush Stdout].

(** No PID to act on: the file is missing or holds the number 0. *)
Definition no_pid_recorded (d : Daemon) (w : world) : Prop :=
  fs (os w) !! pidfile d = None \/
  exists c, fs (os w) !! pidfile d = Some c /\ Py.int (Py.strip c) = Some 0.

Definition slept (E : environment) (w : world) (evs : list event) : world :=
  World (others E (ticks w) (os w)) (self w) (S (ticks w)) (nforks w)
        (evs ++ EvSleep :: trace w).

Definition is_kill (e : event) : bool :=
  match e with EvKill _ _ => true | _ => false end.

(** No signal in [t] failed to be delivered. *)
Definition quiet (t : list event) : Prop :=
  forall p err, ~ In (EvKill p (Some err)) t.

(** Traces (newest call first) in which a signal is sent only straight
    after a sleep and a look at the lock file that found it gone; with
    no lock file configured, signals are sent freely. *)
Inductive polite (lock : option string) : list event -> Prop :=
| polite_nil : polite lock []
| polite_other e t : is_kill e = false -> polite lock t -> polite lock (e :: t)
| polite_kill p f l t :
    lock = Some l -> polite lock t ->
    polite lock (EvKill p f :: EvExists l false :: EvSleep :: t)
| polite_direct p f t :
    lock = None -> polite lock t -> polite lock (EvKill p f :: t).

(** How a run of the loop can end, given the calls [t] it made. *)
Definition outcome (pid : Z) (r : result unit) (t : list event) : Prop :=
  match r with
  | Ok _ | Spin => quiet t
  | Raise (OSError err) =>
      exists t', t = EvKill pid (Some err) :: t' /\ quiet t'
  | Raise OverflowError => pid_t_range pid = false /\ quiet t
  | Raise _ => False
  end.

Definition housekeeping (e : event) : Prop :=
  match e with
  | EvExists _ _ | EvRemove _ => True
  | _ => False
  end.

(** The state [delpid(); dellock()] leaves. *)
Definition cleanup (d : Daemon) (w : world) : world :=
  match lockfile d with
  | Some l => removal l (removal (pidfile d) w)
  | None => removal (pidfile d) w
  end.

Definition stopped (d : Daemon) (w : world) : world :=
  push (EvLog Quiet 1071 (stopped_message d)) (cleanup d w).

(** The calls (newest first) that [if os.path.exists(path) is True:
    os.remove(path)] makes when the files are [files]: the test, and
    the removal when the test finds the file. *)
Definition probe (path : string) (files : gmap string string) : list event :=
  match files !! path with
  | Some _ => [EvRemove path; EvExists path true]
  | None => [EvExists path false]
  end.

(** The calls of [delpid(); dellock()] started on the files [files],
    and the files they leave. *)
Definition cleanup_calls (d : Daemon) (files : gmap string string) : list event :=
  match lockfile d with
  | Some l => probe l (delete (pidfile d) files) ++ probe (pidfile d) files
  | None => probe (pidfile d) files
  end.

Definition cleaned (d : Daemon) (files : gmap string string) : gmap string string :=
  match lockfile d with
  | Some l => delete l (delete (pidfile d) files)
  | None => delete (pidfile d) files
  end.

(** The machine after [n] more sleeps, the [k]-th being the next, with
    nobody but the others touching it. *)
Fixpoint drift (E : environment) (n k : nat) (m : machine) : machine :=
  match n with
  | O => m
  | S n' => drift E n' (S k) (others E k m)
  end.

(** Nothing lets the loop out: the lock file is there, or the target
    is there for the caller to signal. *)
Definition busy (d : Daemon) (pid : Z) (m : machine) : Prop :=
  (exists l, lockfile d = Some l /\ is_Some (fs m !! l)) \/
  (pid_t_range pid = true /\ procs m !! pid = Some true).

(** ** Concrete machines, used to run the model *)

Definition pid_path : string := "/tmp/x.pid".
Definition lock_path : string := "/tmp/x.lock".

Definition plain_daemon : Daemon := MkDaemon pid_path None.
Definition locking_daemon : Daemon := MkDaemon pid_path (Some lock_path).

Definition world_of (files : gmap string string) (targets : gmap Z bool) : world :=
  World (Machine files targets) 1%positive 0 0 [].

(** Nobody else does anything, forks succeed, [run()] returns at once,
    every path can be opened for writing. *)
Definition still_env : environment :=
  Environment (fun _ m => m)
              (fun k => ForkChild (Pos.of_nat (4000 + k)))
              (fun m => (Ok tt, m))
              (fun _ _ => None).

(** The worker drops its lock during the third sleep and is gone after
    the fifth. *)
Definition release_env : environment :=
  Environment
    (fun k m =>
       if (k <? 2)%nat then m
       else Machine (delete lock_path (fs m))
                    (if (k <? 4)%nat then procs m else ∅))
    (fun k => ForkChild (Pos.of_nat (4000 + k)))
    (fun m => (Ok tt, m))
    (fun _ _ => None).

Definition fork1_fails : environment :=
  Environment (fun _ m => m) (fun _ => ForkError EAGAIN) (fun m => (Ok tt, m))
              (fun _ _ => None).

Definition fork2_fails : environment :=
  Environment (fun _ m => m)
              (fun k => match k with O => ForkChild 4001 | _ => ForkError ENOMEM end)
              (fun m => (Ok tt, m))
              (fun _ _ => None).

Definition empty_world : world := world_of ∅ ∅.
Definition garbled_world : world := world_of {[ pid_path := "abc" ]} ∅.
Definition zero_world : world := world_of {[ pid_path := "0" +:+ nl ]} ∅.
Definition taken_world : world := world_of {[ pid_path := "77" +:+ nl ]} {[ 77 := true ]}.
Definition working_world : world :=
  world_of {[ pid_path := "77" +:+ nl; lock_path := EmptyString ]} {[ 77 := true ]}.

(** ** Notions for the remaining paths of the class *)

(** The files the class calls its own. *)
Definition own_file (d : Daemon) (p : string) : Prop :=
  p = pidfile d \/ lockfile d = Some p.

(** The calls the signalling loop makes for [pid]. *)
Definition loop_event (d : Daemon) (pid : Z) (e : event) : Prop :=
  match e with
  | EvSleep => True
  | EvExists p _ => lockfile d = Some p
  | EvKill q _ => q = pid
  | _ => False
  end.

(** The calls [delpid] and [dellock] make. *)
Definition cleanup_event (d : Daemon) (e : event) : Prop :=
  match e with
  | EvExists p _ | EvRemove p => own_file d p
  | _ => False
  end.

(** The calls [stop] makes when the PID file names [pid]. *)
Definition stop_event (d : Daemon) (pid : Z) (e : event) : Prop :=
  match e with
  | EvRead p _ => p = pidfile d
  | EvExists p _ | EvRemove p => own_file d p
  | EvKill q _ => q = pid
  | EvSleep => True
  | EvLog _ _ _ => True
  | _ => False
  end.

(** Nobody but the daemon's side creates the file [l]. *)
Definition never_creates (E : environment) (l : string) : Prop :=
  forall k m, fs m !! l = None -> fs (others E k m) !! l = None.

(** The target belongs to somebody else; the target is gone; the PID
    file holds a number no process id can be; the worker is gone but
    its lock file is still there. *)
Definition foreign_world : world :=
  world_of {[ pid_path := "77" +:+ nl ]} {[ 77 := false ]}.
Definition stale_world : world := world_of {[ pid_path := "77" +:+ nl ]} ∅.
Definition oversized_world : world :=
  world_of {[ pid_path := "99999999999" +:+ nl ]} ∅.
Definition stuck_world : world :=
  world_of {[ pid_path := "77" +:+ nl; lock_path := EmptyString ]} ∅.

(** The followed process is the parent of the first fork, or the parent
    of the second. *)
Definition first_parent_env : environment :=
  Environment (fun _ m => m) (fun _ => ForkParent 4000) (fun m => (Ok tt, m))
              (fun _ _ => None).
Definition second_parent_env : environment :=
  Environment (fun _ m => m)
              (fun k => match k with O => ForkChild 4000 | _ => ForkParent 4001 end)
              (fun m => (Ok tt, m))
              (fun _ _ => None).

(** Forks succeed, but the directory of the PID file is missing, so the
    system refuses to create the file. *)
Definition unwritable_env : environment :=
  Environment (fun _ m => m)
              (fun k => ForkChild (Pos.of_nat (4000 + k)))
              (fun m => (Ok tt, m))
              (fun _ path => if String.eqb path pid_path then Some ENOENT else None).

(** ** Sanity checks of the model *)

Example int_examples :
  Py.int ("4242" +:+ nl) = Some 4242 /\ Py.int " 0 " = Some 0 /\
  Py.int "-17" = Some (-17) /\ Py.int "1_000" = Some 1000 /\
  Py.int "abc" = None /\ Py.int EmptyString = None /\
  Py.int "1__0" = None /\ Py.int "12_" = None.
Proof. repeat split; reflexivity. Qed.

Example str_examples :
  Py.str 4242 = "4242" /\ Py.str 0 = "0" /\ Py.str (-30) = "-30".
Proof. repeat split; reflexivity. Qed.

Example find_examples :
  Py.find (str_args ESRCH) "No such process" = 5 /\
  Py.find (str_args EPERM) "No such process" = -1.
Proof. split; vm_compute; reflexivity. Qed.

Example stop_run_example :
  let '(r, w) := stop release_env locking_daemon 10 working_world in
  r = Ok tt /\
  rev (trace w) =
  [EvRead pid_path true;
   EvSleep; EvExists lock_path true;
   EvSleep; EvExists lock_path true;
   EvSleep; EvExists lock_path false; EvKill 77 None; EvSleep;
   EvSleep; EvExists lock_path false; EvKill 77 (Some ESRCH);
   EvExists pid_path true; EvRemove pid_path; EvExists lock_path false;
   EvExists pid_path false; EvExists lock_path false;
   EvLog Quiet 1071 "Daemon Stopped - PID file: /tmp/x.pid"].
Proof. vm_compute. split; reflexivity. Qed.

Example start_run_example :
  let '(r, w) := start still_env plain_daemon empty_world in
  r = Ok tt /\
  rev (trace w) =
  [EvRead pid_path false; EvFork (ForkChild 4000); EvChdir "/"; EvSetsid;
   EvUmask 0; EvFork (ForkChild 4001); EvFlush Stdout; EvFlush Stderr;
   EvOpenNull; EvOpenNull; EvOpenNull;
   EvDup2 Stdin; EvDup2 Stdout; EvDup2 Stderr; EvAtexit;
   EvWrite pid_path ("4001" +:+ nl);
   EvLog Quiet 1070 "Daemon Started - PID file: /tmp/x.pid"; EvRun] /\
  fs (os w) !! pid_path = Some ("4001" +:+ nl).
Proof. vm_compute. repeat split; reflexivity. Qed.

(** ** Facts about the Python primitives *)

Section PyFacts.

Lemma digit_cases (d : Z) :
  0 <= d < 10 ->
  d = 0 \/ d = 1 \/ d = 2 \/ d = 3 \/ d = 4 \/ d = 5 \/ d = 6 \/ d = 7 \/ d = 8 \/ d = 9.
Proof. lia. Qed.

Lemma digit_char_props (d : Z) :
  0 <= d < 10 ->
  Py.digit_val (Py.digit_char d) = Some d /\
  Ascii.eqb (Py.digit_char d) "_"%char = false /\
  Ascii.eqb (Py.digit_char d) "-"%char = false /\
  Ascii.eqb (Py.digit_char d) "+"%char = false /\
  Py.is_space (Py.digit_char d) = false.
Proof.
  intros H. destruct (digit_cases d H) as [-> | [-> | [-> | [-> | [-> | [-> | [-> | [-> | [-> | ->]]]]]]]]];
    repeat split; reflexivity.
Qed.

Lemma dec_go_digits (fuel : nat) : forall n acc,
  0 <= n -> digits acc -> digits (Py.dec_go fuel n acc).
Proof.
  induction fuel as [| f IH]; intros n acc Hn Hacc; cbn [Py.dec_go]; [exact Hacc |].
  assert (Hd : digits (String (Py.digit_char (n mod 10)) acc)).
  { split; [| exact Hacc]. exists (n mod 10). split; [| reflexivity].
    apply Z.mod_pos_bound. lia. }
  destruct (n / 10 =? 0); [exact Hd |].
  apply IH; [apply Z.div_pos; lia | exact Hd].
Qed.

Lemma dec_go_keeps (fuel : nat) : forall n acc,
  acc <> EmptyString -> Py.dec_go fuel n acc <> EmptyString.
Proof.
  induction fuel as [| f IH]; intros n acc Hacc; cbn [Py.dec_go]; [exact Hacc |].
  destruct (n / 10 =? 0); [discriminate | apply IH; discriminate].
Qed.

Lemma dec_go_nonempty (fuel : nat) (n : Z) (acc : string) :
  Py.dec_go (S fuel) n acc <> EmptyString.
Proof.
  cbn [Py.dec_go]. destruct (n / 10 =? 0); [discriminate |].
  apply dec_go_keeps. discriminate.
Qed.

Lemma int_digits_step (v acc : Z) (rest : string) :
  0 <= v < 10 ->
  Py.int_digits acc (String (Py.digit_char v) rest) = Py.int_digits (10 * acc + v) rest.
Proof.
  intros Hv. destruct (digit_char_props v Hv) as (Hd & Hu & _).
  cbn [Py.int_digits]. rewrite Hu, Hd. reflexivity.
Qed.

Lemma log2_div10 (n : Z) : 10 <= n -> Z.log2 (n / 10) < Z.log2 n.
Proof.
  intros Hn.
  assert (H1 : Z.log2 (n / 10) <= Z.log2 (n / 2)).
  { apply Z.log2_le_mono. apply Z.div_le_compat_l; lia. }
  assert (H2 : Z.log2 (n / 2) = Z.log2 n - 1).
  { rewrite <- Z.div2_div, Z.div2_spec, Z.log2_shiftr by lia.
    pose proof (Z.log2_le_mono 10 n Hn) as Hl.
    change (Z.log2 10) with 3 in Hl. lia. }
  lia.
Qed.

(** Reading digits back: the digits of [n] in front of [rest] push the
    accumulator up by the right power of ten. *)
Lemma int_digits_dec_go (fuel : nat) : forall n rest,
  0 <= n -> Z.log2 n < Z.of_nat fuel ->
  exists k, 0 <= k /\ forall acc,
    Py.int_digits acc (Py.dec_go fuel n rest) = Py.int_digits (acc * 10 ^ k + n) rest.
Proof.
  induction fuel as [| f IH]; intros n rest Hn Hfuel.
  - pose proof (Z.log2_nonneg n). lia.
  - cbn [Py.dec_go]. pose proof (Z.mod_pos_bound n 10 ltac:(lia)) as Hm.
    pose proof (Z.div_mod n 10 ltac:(lia)) as Hdm.
    destruct (n / 10 =? 0) eqn:Hq.
    + apply Z.eqb_eq in Hq. exists 1. split; [lia |]. intros acc.
      rewrite int_digits_step by assumption. f_equal.
      (change (10 ^ 1) with 10; lia).
    + apply Z.eqb_neq in Hq.
      assert (Hn10 : 10 <= n).
      { (destruct (Z_lt_le_dec n 10) as [Hlt |]; [| assumption];
        rewrite Z.div_small in Hq by lia; congruence). }
      pose proof (log2_div10 n Hn10) as Hlog.
      assert (H0 : 0 <= n / 10) by (apply Z.div_pos; lia).
      assert (H1 : Z.log2 (n / 10) < Z.of_nat f) by lia.
      destruct (IH (n / 10) (String (Py.digit_char (n mod 10)) rest)
                  H0 H1) as (k & Hk & IHk).
      exists (k + 1). split; [lia |]. intros acc.
      rewrite IHk, int_digits_step by assumption. f_equal.
      rewrite Z.pow_add_r by lia.
      (replace (acc * (10 ^ k * 10 ^ 1)) with (10 * (acc * 10 ^ k))
        by (change (10 ^ 1) with 10; ring);
      generalize (acc * 10 ^ k); clear - Hdm; intros x; lia).

Qed.

Lemma int_unsigned_digits (s : string) :
  digits s -> s <> EmptyString -> Py.int_unsigned s = Py.int_digits 0 s.
Proof.
  destruct s as [| c r]; [congruence |].
  intros [(v & Hv & ->) _] _. cbn [Py.int_unsigned Py.int_digits].
  destruct (digit_char_props v Hv) as (Hd & Hu & _).
  rewrite Hu, Hd. reflexivity.
Qed.

Lemma rstrip_digits (s : string) : digits s -> Py.rstrip s = s.
Proof.
  induction s as [| c r IH]; [reflexivity |].
  intros [(v & Hv & ->) Hr]. cbn [Py.rstrip]. rewrite (IH Hr).
  destruct (digit_char_props v Hv) as (_ & _ & _ & _ & Hs).
  rewrite Hs. destruct r; reflexivity.
Qed.

Lemma rstrip_app_nl (s : string) : Py.rstrip (s +:+ nl) = Py.rstrip s.
Proof.
  induction s as [| c r IH]; [reflexivity |].
  change (String c r +:+ nl) with (String c (r +:+ nl)).
  cbn [Py.rstrip]. rewrite IH. reflexivity.
Qed.

Lemma strip_digits_nl (s : string) :
  digits s -> s <> EmptyString -> Py.strip (s +:+ nl) = s /\ Py.strip s = s.
Proof.
  intros Hs Hne. unfold Py.strip.
  destruct s as [| c r]; [congruence |].
  pose proof Hs as Hd.
  destruct Hs as [(v & Hv & ->) Hr].
  destruct (digit_char_props v Hv) as (_ & _ & _ & _ & Hsp).
  change (String (Py.digit_char v) r +:+ nl)
    with (String (Py.digit_char v) (r +:+ nl)).
  cbn [Py.lstrip]. rewrite Hsp.
  change (String (Py.digit_char v) (r +:+ nl))
    with (String (Py.digit_char v) r +:+ nl).
  rewrite rstrip_app_nl. split; apply rstrip_digits, Hd.
Qed.

Lemma int_of_digits (s : string) (n : Z) :
  digits s -> s <> EmptyString -> Py.int_digits 0 s = Some n -> Py.int s = Some n.
Proof.
  intros Hs Hne Hn. unfold Py.int.
  destruct (strip_digits_nl s Hs Hne) as [_ ->].
  rewrite <- (int_unsigned_digits s Hs Hne) in Hn.
  destruct s as [| c r]; [congruence |].
  destruct Hs as [(v & Hv & ->) Hr].
  destruct (digit_char_props v Hv) as (_ & _ & Hm & Hp & _).
  rewrite Hm, Hp. exact Hn.
Qed.

(** What [daemonize] writes is read back by [start] and [stop] as the
    same number. *)
Lemma int_strip_str_nl (n : Z) :
  0 <= n ->
  Py.int (Py.strip (Py.str n +:+ nl)) = Some n /\ Py.str n = Py.dec n.
Proof.
  intros Hn. unfold Py.str.
  destruct (n <? 0) eqn:Hneg; [apply Z.ltb_lt in Hneg; lia |].
  split; [| reflexivity].
  unfold Py.dec.
  set (fuel := Z.to_nat (Z.log2 n)).
  assert (Hd : digits (Py.dec_go (S fuel) n EmptyString))
    by (apply dec_go_digits; [assumption | exact I]).
  pose proof (dec_go_nonempty fuel n EmptyString) as Hne.
  destruct (strip_digits_nl _ Hd Hne) as [-> _].
  apply int_of_digits; [assumption | assumption |].
  destruct (int_digits_dec_go (S fuel) n EmptyString Hn) as (k & _ & Hk).
  { subst fuel. pose proof (Z.log2_nonneg n). lia. }
  rewrite Hk. reflexivity.
Qed.

End PyFacts.

(** ** Facts about the calls *)

Section CallFacts.

Variable E : environment.
Variable d : Daemon.

Lemma read_pid_absent (w : world) :
  fs (os w) !! pidfile d = None ->
  read_pid d w = (Ok None, push (EvRead (pidfile d) false) w).
Proof.
  intros H. unfold read_pid, try_except, bind, open_read. rewrite H. reflexivity.
Qed.

Lemma read_pid_parsed (w : world) (c : string) (n : Z) :
  fs (os w) !! pidfile d = Some c -> Py.int (Py.strip c) = Some n ->
  read_pid d w = (Ok (Some n), push (EvRead (pidfile d) true) w).
Proof.
  intros H Hn. unfold read_pid, try_except, bind, open_read. rewrite H, Hn. reflexivity.
Qed.

Lemma read_pid_garbled (w : world) (c : string) :
  fs (os w) !! pidfile d = Some c -> Py.int (Py.strip c) = None ->
  read_pid d w = (Raise ValueError, push (EvRead (pidfile d) true) w).
Proof.
  intros H Hn. unfold read_pid, try_except, bind, open_read. rewrite H, Hn. reflexivity.
Qed.

Lemma remove_if_exists (path : string) (w : world) :
  (b <- os_path_exists path ;; if b then os_remove path else ret tt) w
  = (Ok tt, removal path w).
Proof.
  unfold bind, os_path_exists, os_remove, removal.
  destruct (fs (os w) !! path) as [c |] eqn:H.
  - rewrite bool_decide_true by eauto.
    cbn [push os]. rewrite H. reflexivity.
  - rewrite bool_decide_false by (intros [? ?]; discriminate).
    reflexivity.
Qed.

Lemma removal_fs (path : string) (w : world) :
  fs (os (removal path w)) = delete path (fs (os w)).
Proof.
  unfold removal. destruct (fs (os w) !! path) eqn:H; cbn [os fs push].
  - reflexivity.
  - symmetry. apply delete_id. exact H.
Qed.

Lemma removal_procs (path : string) (w : world) :
  procs (os (removal path w)) = procs (os w).
Proof. unfold removal. destruct (fs (os w) !! path); reflexivity. Qed.

Lemma removal_gone (path : string) (w : world) :
  fs (os (removal path w)) !! path = None.
Proof. rewrite removal_fs. apply lookup_delete_eq. Qed.

Lemma removal_again (path : string) (w : world) :
  removal path (removal path w) = push (EvExists path false) (removal path w).
Proof. unfold removal at 1. rewrite removal_gone. reflexivity. Qed.

Lemma delpid_removal (w : world) : delpid d w = (Ok tt, removal (pidfile d) w).
Proof. apply remove_if_exists. Qed.

Lemma dellock_removal (w : world) :
  dellock d w =
  (Ok tt, match lockfile d with Some l => removal l w | None => w end).
Proof.
  unfold dellock. destruct (lockfile d) as [l |]; [apply remove_if_exists | reflexivity].
Qed.

End CallFacts.

Section Claims.

Variable E : environment.
Variable d : Daemon.

Lemma removal_absent (path : string) (w : world) :
  fs (os w) !! path = None -> removal path w = push (EvExists path false) w.
Proof. intros H. unfold removal. rewrite H. reflexivity. Qed.

(** C6: [status()] never raises; it prints that the daemon is running
    exactly when the PID file exists and that it is stopped otherwise;
    its only calls are the existence test and the print, so the file is
    not opened and the machine is left as it was. *)
Theorem status_reports_pidfile_presence (w : world) :
  let b := bool_decide (is_Some (fs (os w) !! pidfile d)) in
  status d w =
  (Ok tt,
   World (os w) (self w) (ticks w) (nforks w)
         (EvPrint (if b then "Daemon is running" else "Daemon is stopped")
          :: EvExists (pidfile d) b :: trace w)).
Proof.
  unfold status, bind, os_path_exists, print, emit, push.
  destruct (bool_decide (is_Some (fs (os w) !! pidfile d))); reflexivity.
Qed.

(** C10: [delpid()] and [dellock()] always return normally; each leaves
    the file system without its file and touches nothing else; called
    again at once, each only tests for the file and changes nothing;
    and so the pair run twice, as on the dead-process path of [stop],
    leaves the machine as the pair run once. *)
Theorem delpid_dellock_idempotent (w : world) :
  (exists w1,
      delpid d w = (Ok tt, w1) /\
      fs (os w1) = delete (pidfile d) (fs (os w)) /\
      procs (os w1) = procs (os w) /\
      (fs (os w) !! pidfile d = None -> os w1 = os w) /\
      delpid d w1 = (Ok tt, push (EvExists (pidfile d) false) w1)) /\
  (exists w1,
      dellock d w = (Ok tt, w1) /\
      match lockfile d with
      | Some l =>
          fs (os w1) = delete l (fs (os w)) /\
          procs (os w1) = procs (os w) /\
          (fs (os w) !! l = None -> os w1 = os w) /\
          dellock d w1 = (Ok tt, push (EvExists l false) w1)
      | None => w1 = w
      end) /\
  (exists w1 w2,
      (delpid d ;; dellock d) w = (Ok tt, w1) /\
      (delpid d ;; dellock d) w1 = (Ok tt, w2) /\
      os w2 = os w1).
Proof.
  split; [| split].
  - exists (removal (pidfile d) w). rewrite !delpid_removal.
    rewrite removal_again, removal_fs, removal_procs.
    repeat split; try reflexivity.
    intros H. rewrite (removal_absent _ _ H). reflexivity.
  - rewrite dellock_removal. eexists; split; [reflexivity |].
    destruct (lockfile d) as [l |] eqn:Hl; [| reflexivity].
    rewrite dellock_removal, Hl, removal_again, removal_fs, removal_procs.
    repeat split; try reflexivity.
    intros H. rewrite (removal_absent _ _ H). reflexivity.
  - unfold bind. rewrite !delpid_removal, !dellock_removal.
    eexists; eexists; split; [reflexivity |].
    rewrite delpid_removal, dellock_removal. split; [reflexivity |].
    destruct (lockfile d) as [l |].
    + set (w1 := removal l (removal (pidfile d) w)).
      assert (Hp : fs (os w1) !! pidfile d = None).
      { subst w1. rewrite removal_fs, removal_fs.
        destruct (decide (l = pidfile d)) as [-> | Hne].
        - apply lookup_delete_eq.
        - rewrite lookup_delete_ne by exact Hne. apply lookup_delete_eq. }
      rewrite (removal_absent _ _ Hp).
      assert (Hl : fs (os (push (EvExists (pidfile d) false) w1)) !! l = None)
        by (subst w1; apply removal_gone).
      rewrite (removal_absent _ _ Hl). reflexivity.
    + rewrite removal_again. reflexivity.
Qed.

(** C8: [force()] is [dellock()] followed by [stop()]: [dellock]
    returns normally in a state where the configured lock file is gone
    and every other file and every process is as before, and [force]
    ends exactly as [stop] does when started in that state. *)
Theorem force_is_stop_after_lock_removal (fuel : nat) (w : world) :
  exists w1,
    dellock d w = (Ok tt, w1) /\
    (forall l, lockfile d = Some l -> fs (os w1) = delete l (fs (os w))) /\
    (lockfile d = None -> w1 = w) /\
    procs (os w1) = procs (os w) /\
    force E d fuel w = stop E d fuel w1.
Proof.
  rewrite dellock_removal. eexists; split; [reflexivity |].
  unfold force, bind. rewrite dellock_removal.
  destruct (lockfile d) as [l |].
  - repeat split.
    + intros l' [= <-]. apply removal_fs.
    + discriminate.
    + apply removal_procs.
  - repeat split. discriminate.
Qed.

(** *** [daemonize] and [start] along each way the forks can go *)

Lemma daemonize_fork1_error (w : world) (err : errno) :
  fork_outcome E (nforks w) = ForkError err ->
  daemonize E d w =
  (Raise (Fatal 1060 (fork1_message d err)),
   push (EvLog Die 1060 (fork1_message d err)) (after_fork (ForkError err) w)).
Proof.
  intros H. unfold daemonize, bind, try_except, os_fork. rewrite H. reflexivity.
Qed.

Lemma daemonize_fork1_parent (w : world) (child : positive) :
  fork_outcome E (nforks w) = ForkParent child ->
  daemonize E d w = (Raise (SystemExit 0), after_fork (ForkParent child) w).
Proof.
  intros H. unfold daemonize, bind, try_except, os_fork. rewrite H. reflexivity.
Qed.

Lemma daemonize_fork2_error (w : world) (c1 : positive) (err : errno) :
  fork_outcome E (nforks w) = ForkChild c1 ->
  fork_outcome E (S (nforks w)) = ForkError err ->
  daemonize E d w =
  (Raise (Fatal 1061 (fork2_message d err)),
   World (os w) c1 (ticks w) (S (S (nforks w)))
         (EvLog Die 1061 (fork2_message d err) :: EvFork (ForkError err)
          :: detach_events ++ EvFork (ForkChild c1) :: trace w)).
Proof.
  intros H1 H2. unfold daemonize, bind, try_except, os_fork. rewrite H1.
  cbn [Z.ltb Z.compare sys_exit ret os_chdir os_setsid os_umask emit push
       nforks os self ticks trace].
  rewrite H2. reflexivity.
Qed.

Lemma daemonize_fork2_parent (w : world) (c1 child : positive) :
  fork_outcome E (nforks w) = ForkChild c1 ->
  fork_outcome E (S (nforks w)) = ForkParent child ->
  daemonize E d w =
  (Raise (SystemExit 0),
   World (os w) c1 (ticks w) (S (S (nforks w)))
         (EvFork (ForkParent child)
          :: detach_events ++ EvFork (ForkChild c1) :: trace w)).
Proof.
  intros H1 H2. unfold daemonize, bind, try_except, os_fork. rewrite H1.
  cbn [Z.ltb Z.compare sys_exit ret os_chdir os_setsid os_umask emit push
       nforks os self ticks trace].
  rewrite H2. reflexivity.
Qed.

Lemma daemonize_detached (w : world) (c1 me : positive) :
  fork_outcome E (nforks w) = ForkChild c1 ->
  fork_outcome E (S (nforks w)) = ForkChild me ->
  open_failure E (os w) (pidfile d) = None ->
  daemonize E d w =
  (Ok tt,
   World (Machine (<[pidfile d := Py.str (Z.pos me) +:+ nl]> (fs (os w)))
                  (procs (os w)))
         me (ticks w) (S (S (nforks w)))
         (EvWrite (pidfile d) (Py.str (Z.pos me) +:+ nl)
          :: redirect_events ++ EvFork (ForkChild me)
          :: detach_events ++ EvFork (ForkChild c1) :: trace w)).
Proof.
  intros H1 H2 H3. unfold daemonize, bind, try_except, os_fork. rewrite H1.
  cbn [Z.ltb Z.compare sys_exit ret os_chdir os_setsid os_umask emit push
       nforks os self ticks trace].
  rewrite H2.
  cbn [Z.ltb Z.compare sys_exit ret flush open_devnull os_dup2
       atexit_register_delpid os_getpid emit push nforks os self ticks trace].
  unfold open_write. cbn [push os self ticks nforks trace]. rewrite H3.
  reflexivity.
Qed.

(** The detached process registers its exit hook and then fails to open
    the PID file: the [OSError] of [open] leaves [daemonize]. *)
Lemma daemonize_unwritable (w : world) (c1 me : positive) (err : errno) :
  fork_outcome E (nforks w) = ForkChild c1 ->
  fork_outcome E (S (nforks w)) = ForkChild me ->
  open_failure E (os w) (pidfile d) = Some err ->
  daemonize E d w =
  (Raise (OSError err),
   World (os w) me (ticks w) (S (S (nforks w)))
         (EvOpenFailed (pidfile d) err
          :: redirect_events ++ EvFork (ForkChild me)
          :: detach_events ++ EvFork (ForkChild c1) :: trace w)).
Proof.
  intros H1 H2 H3. unfold daemonize, bind, try_except, os_fork. rewrite H1.
  cbn [Z.ltb Z.compare sys_exit ret os_chdir os_setsid os_umask emit push
       nforks os self ticks trace].
  rewrite H2.
  cbn [Z.ltb Z.compare sys_exit ret flush open_devnull os_dup2
       atexit_register_delpid os_getpid emit push nforks os self ticks trace].
  unfold open_write. cbn [push os self ticks nforks trace]. rewrite H3.
  reflexivity.
Qed.

Lemma read_pid_falsy (w : world) :
  no_pid_recorded d w ->
  exists found p,
    read_pid d w = (Ok p, push (EvRead (pidfile d) found) w) /\
    Py.truthy p = false /\
    found = bool_decide (is_Some (fs (os w) !! pidfile d)).
Proof.
  intros [H | (c & H & Hc)].
  - exists false, None. rewrite (read_pid_absent d w H), H.
    repeat split.
  - exists true, (Some 0). rewrite (read_pid_parsed d w c 0 H Hc), H.
    repeat split.
Qed.

Lemma read_pid_cases (w : world) :
  (exists found p, read_pid d w = (Ok p, push (EvRead (pidfile d) found) w)) \/
  read_pid d w = (Raise ValueError, push (EvRead (pidfile d) true) w).
Proof.
  destruct (fs (os w) !! pidfile d) as [c |] eqn:H.
  - destruct (Py.int (Py.strip c)) as [n |] eqn:Hc.
    + left. exists true, (Some n). apply (read_pid_parsed d w c n H Hc).
    + right. apply (read_pid_garbled d w c H Hc).
  - left. exists false, None. apply (read_pid_absent d w H).
Qed.

Lemma start_after_check (w w1 : world) (p : option Z) :
  read_pid d w = (Ok p, w1) -> Py.truthy p = false ->
  start E d w = (daemonize E d ;; log2quiet 1070 (started_message d) ;; run E) w1.
Proof.
  intros H Hp. unfold start. unfold bind at 1. rewrite H, Hp. reflexivity.
Qed.

Lemma start_refused (w w1 : world) (p : option Z) :
  read_pid d w = (Ok p, w1) -> Py.truthy p = true ->
  start E d w =
  (Raise (Fatal 1062 (exists_message d)), push (EvLog Die 1062 (exists_message d)) w1).
Proof.
  intros H Hp. unfold start. unfold bind at 1. rewrite H, Hp. reflexivity.
Qed.

Lemma start_garbled (w w1 : world) (e : exn) :
  read_pid d w = (Raise e, w1) -> start E d w = (Raise e, w1).
Proof.
  intros H. unfold start. unfold bind at 1. rewrite H. reflexivity.
Qed.

Lemma append_assoc (a b c : string) : (a +:+ b) +:+ c = a +:+ (b +:+ c).
Proof.
  induction a as [| x a IH]; [reflexivity |].
  change (String x ((a +:+ b) +:+ c) = String x (a +:+ (b +:+ c))).
  rewrite IH. reflexivity.
Qed.

Lemma messages_differ (e1 e2 : errno) : fork1_message d e1 <> fork2_message d e2.
Proof.
  unfold fork1_message, fork2_message. intros H.
  cbv [String.append] in H. congruence.
Qed.

(** C1 (as the code has it): with the PID file missing, [stop()] logs
    warning 1063 and returns normally; with a PID file whose content is
    not an integer, it raises [ValueError] and logs nothing.  Either
    way it calls nothing beyond the read of the file (and, in the first
    case, the log): no signal is sent and the machine is left as it
    was. *)
Theorem stop_without_usable_pid (fuel : nat) (w : world) :
  (fs (os w) !! pidfile d = None \/
   exists c, fs (os w) !! pidfile d = Some c /\ Py.int (Py.strip c) = None) ->
  (fs (os w) !! pidfile d = None /\
   stop E d fuel w =
   (Ok tt,
    World (os w) (self w) (ticks w) (nforks w)
          (EvLog Warn 1063 (missing_message d)
           :: EvRead (pidfile d) false :: trace w))) \/
  (is_Some (fs (os w) !! pidfile d) /\
   stop E d fuel w =
   (Raise ValueError,
    World (os w) (self w) (ticks w) (nforks w)
          (EvRead (pidfile d) true :: trace w))).
Proof.
  intros [H | (c & H & Hc)].
  - left. split; [exact H |].
    unfold stop, bind. rewrite (read_pid_absent d w H). reflexivity.
  - right. split; [rewrite H; eauto |].
    unfold stop, bind. rewrite (read_pid_garbled d w c H Hc). reflexivity.
Qed.

(** [stop()] also takes a PID file holding 0 for "not running". *)
Lemma stop_zero_pid (fuel : nat) (w : world) (c : string) :
  fs (os w) !! pidfile d = Some c -> Py.int (Py.strip c) = Some 0 ->
  stop E d fuel w =
  (Ok tt,
   World (os w) (self w) (ticks w) (nforks w)
         (EvLog Warn 1063 (missing_message d)
          :: EvRead (pidfile d) true :: trace w)).
Proof.
  intros H Hc. unfold stop, bind. rewrite (read_pid_parsed d w c 0 H Hc).
  reflexivity.
Qed.

(** C2 (as the code has it): when the PID file exists and its content
    is anything but the number 0, [start()] fails before the first
    fork: with the fatal error 1062 if the content is a nonzero
    integer, with [ValueError] if it is no integer.  Its only calls
    are the read and, for 1062, the log entry, so nothing is forked,
    written or run and the machine is left as it was. *)
Theorem start_refuses_recorded_pid (w : world) (c : string) :
  fs (os w) !! pidfile d = Some c ->
  Py.int (Py.strip c) <> Some 0 ->
  exists e t,
    start E d w =
    (Raise e,
     World (os w) (self w) (ticks w) (nforks w)
           (t ++ EvRead (pidfile d) true :: trace w)) /\
    ((exists n, Py.int (Py.strip c) = Some n /\
                e = Fatal 1062 (exists_message d) /\
                t = [EvLog Die 1062 (exists_message d)]) \/
     (Py.int (Py.strip c) = None /\ e = ValueError /\ t = [])).
Proof.
  intros H Hc. destruct (Py.int (Py.strip c)) as [n |] eqn:Hn.
  - exists (Fatal 1062 (exists_message d)), [EvLog Die 1062 (exists_message d)].
    split; [| left; eauto].
    rewrite (start_refused w _ _ (read_pid_parsed d w c n H Hn)); [reflexivity |].
    cbn [Py.truthy]. destruct (Z.eqb_spec n 0) as [-> |]; [congruence | reflexivity].
  - exists ValueError, []. split; [| right; auto].
    rewrite (start_garbled w _ _ (read_pid_garbled d w c H Hn)). reflexivity.
Qed.

(** C7: when no PID is on record and one of the two forks fails,
    [start()] ends in the fatal error of [log2die]: 1060 with the
    "fork #1" message if the first fork failed, 1061 with the
    "fork #2" message if the second did; the two messages differ and
    both end in the PID-file path; the error is logged, the file
    system is untouched and no file is written. *)
Theorem fork_failure_is_fatal (w : world) (err : errno) :
  no_pid_recorded d w ->
  (fork_outcome E (nforks w) = ForkError err \/
   exists me, fork_outcome E (nforks w) = ForkChild me /\
              fork_outcome E (S (nforks w)) = ForkError err) ->
  exists code msg w',
    start E d w = (Raise (Fatal code msg), w') /\
    os w' = os w /\
    (exists t, trace w' = EvLog Die code msg :: t ++ trace w /\
               forall p c, ~ In (EvWrite p c) t) /\
    ((fork_outcome E (nforks w) = ForkError err /\
      code = 1060 /\ msg = fork1_message d err) \/
     (fork_outcome E (nforks w) <> ForkError err /\
      code = 1061 /\ msg = fork2_message d err)) /\
    fork1_message d err <> fork2_message d err /\
    (exists pre, msg = pre +:+ pidfile d).
Proof.
  intros Hpid Hfork.
  destruct (read_pid_falsy w Hpid) as (found & p & Hread & Hp & _).
  rewrite (start_after_check w _ p Hread Hp). unfold bind at 1.
  destruct Hfork as [H1 | (me & H1 & H2)].
  - rewrite (daemonize_fork1_error (push (EvRead (pidfile d) found) w) err H1).
    exists 1060, (fork1_message d err). eexists. split; [reflexivity |].
    split; [reflexivity |]. split.
    { exists [EvFork (ForkError err); EvRead (pidfile d) found].
      split; [reflexivity |]. intros p0 c0 [Hin | [Hin | []]]; discriminate. }
    split; [left; auto |]. split; [apply messages_differ |].
    eexists. unfold fork1_message. symmetry. apply append_assoc.
  - rewrite (daemonize_fork2_error (push (EvRead (pidfile d) found) w) me err H1 H2).
    exists 1061, (fork2_message d err). eexists. split; [reflexivity |].
    split; [reflexivity |]. split.
    { exists (EvFork (ForkError err) :: detach_events
              ++ [EvFork (ForkChild me); EvRead (pidfile d) found]).
      split; [reflexivity |].
      intros p0 c0 Hin. cbn in Hin.
      repeat (destruct Hin as [Hin | Hin]; [discriminate |]). exact Hin. }
    split; [right; repeat split; congruence |]. split; [apply messages_differ |].
    eexists. unfold fork2_message. symmetry. apply append_assoc.
Qed.

(** The calls made since [tl], read off a trace that ends in [tl]. *)
Ltac delta_of t tl :=
  lazymatch t with
  | tl => constr:(@nil event)
  | ?e :: ?r => let l := delta_of r tl in constr:(e :: l)
  | ?a ++ ?r => let l := delta_of r tl in constr:(a ++ l)
  end.

Ltac find_delta Ht :=
  lazymatch type of Ht with
  | ?full = ?t ++ ?tl =>
      let l := delta_of full tl in
      let H := fresh "Hdelta" in
      assert (H : t = l)
        by (apply (app_inv_tail tl); rewrite <- Ht;
            cbv [detach_events redirect_events];
            cbn [List.app]; reflexivity);
      subst t
  end.

Ltac not_among Hin :=
  cbv [detach_events redirect_events] in Hin; cbn [List.app In] in Hin;
  repeat (destruct Hin as [Hin | Hin]; [discriminate Hin |]);
  try contradiction.

(** C5: whenever [start()] gets as far as invoking [run()], the calls it
    made are, in order: the read of the PID file, fork #1, chdir,
    setsid, umask, fork #2, the two flushes, the three opens of the
    null device, the three dup2 onto stdin, stdout and stderr, the
    atexit registration, the write of the PID file, log entry 1070, and
    [run()].  What is written is [str(os.getpid())] of the process
    left by the second fork, followed by a newline: decimal digits
    that [int(read().strip())] reads back as that nonnegative id; and
    [run()] starts on a machine whose PID file holds it. *)
Theorem start_writes_pid_after_detaching
    (w w' : world) (r : result unit) (t : list event) :
  start E d w = (r, w') ->
  trace w' = t ++ trace w ->
  In EvRun t ->
  exists found c1 me,
    rev t =
    [EvRead (pidfile d) found; EvFork (ForkChild c1); EvChdir "/"; EvSetsid;
     EvUmask 0; EvFork (ForkChild me); EvFlush Stdout; EvFlush Stderr;
     EvOpenNull; EvOpenNull; EvOpenNull;
     EvDup2 Stdin; EvDup2 Stdout; EvDup2 Stderr; EvAtexit;
     EvWrite (pidfile d) (Py.str (Z.pos me) +:+ nl);
     EvLog Quiet 1070 (started_message d); EvRun] /\
    self w' = me /\
    Py.int (Py.strip (Py.str (Z.pos me) +:+ nl)) = Some (Z.pos me) /\
    0 <= Z.pos me /\
    Py.str (Z.pos me) = Py.dec (Z.pos me) /\
    (r, os w') =
    payload E (Machine (<[pidfile d := Py.str (Z.pos me) +:+ nl]> (fs (os w)))
                       (procs (os w))).
Proof.
  intros Hstart Ht Hin.
  destruct (read_pid_cases w) as [(found & p & Hread) | Hread].
  2: { rewrite (start_garbled w _ _ Hread) in Hstart.
       injection Hstart as <- <-. cbn [trace push] in Ht.
       find_delta Ht. not_among Hin. }
  destruct (Py.truthy p) eqn:Hp.
  { rewrite (start_refused w _ p Hread Hp) in Hstart.
    injection Hstart as <- <-. cbn [trace push] in Ht.
    find_delta Ht. not_among Hin. }
  rewrite (start_after_check w _ p Hread Hp) in Hstart.
  unfold bind at 1 in Hstart.
  set (w1 := push (EvRead (pidfile d) found) w) in *.
  destruct (fork_outcome E (nforks w1)) as [child | c1 | err] eqn:H1.
  { rewrite (daemonize_fork1_parent w1 child H1) in Hstart.
    injection Hstart as <- <-. cbn [trace push after_fork w1] in Ht.
    subst w1. cbn [trace push after_fork] in Ht.
    find_delta Ht. not_among Hin. }
  2: { rewrite (daemonize_fork1_error w1 err H1) in Hstart.
       injection Hstart as <- <-. subst w1. cbn [trace push after_fork] in Ht.
       find_delta Ht. not_among Hin. }
  destruct (fork_outcome E (S (nforks w1))) as [child | me | err] eqn:H2.
  { rewrite (daemonize_fork2_parent w1 c1 child H1 H2) in Hstart.
    injection Hstart as <- <-. subst w1. cbn [trace push] in Ht.
    find_delta Ht. not_among Hin. }
  2: { rewrite (daemonize_fork2_error w1 c1 err H1 H2) in Hstart.
       injection Hstart as <- <-. subst w1. cbn [trace push] in Ht.
       find_delta Ht. not_among Hin. }
  destruct (open_failure E (os w1) (pidfile d)) as [err |] eqn:H3.
  { rewrite (daemonize_unwritable w1 c1 me err H1 H2 H3) in Hstart.
    injection Hstart as <- <-. subst w1. cbn [trace push] in Ht.
    find_delta Ht. not_among Hin. }
  rewrite (daemonize_detached w1 c1 me H1 H2 H3) in Hstart.
  unfold bind, log2quiet, emit, push, run in Hstart.
  cbn [os self ticks nforks trace] in Hstart.
  destruct (payload E _) as [r0 m0] eqn:Hpay in Hstart.
  injection Hstart as <- <-. subst w1. cbn [trace push os] in *.
  find_delta Ht.
  exists found, c1, me.
  destruct (int_strip_str_nl (Z.pos me) ltac:(lia)) as [Hint Hdec].
  repeat split; try assumption; try reflexivity; try lia.
  symmetry. exact Hpay.
Qed.

(** *** The signalling loop *)

Lemma kill_then_sleep (pid : Z) (w : world) :
  (os_kill pid ;; time_sleep E) w =
  if pid_t_range pid then
    match procs (os w) !! pid with
    | Some true => (Ok tt, slept E (push (EvKill pid None) w) [])
    | Some false => (Raise (OSError EPERM), push (EvKill pid (Some EPERM)) w)
    | None => (Raise (OSError ESRCH), push (EvKill pid (Some ESRCH)) w)
    end
  else (Raise OverflowError, w).
Proof.
  unfold bind, os_kill. destruct (pid_t_range pid); [| reflexivity].
  destruct (procs (os w) !! pid) as [[|] |]; reflexivity.
Qed.

Lemma iteration_no_lock (pid : Z) (w : world) :
  lockfile d = None ->
  iteration E d pid w = (os_kill pid ;; time_sleep E) w.
Proof.
  intros Hl. unfold iteration. rewrite Hl. unfold bind, ret.
  destruct (os_kill pid w) as [[[] | e |] w1]; reflexivity.
Qed.

Lemma iteration_lock_held (pid : Z) (w : world) (l : string) :
  lockfile d = Some l ->
  is_Some (fs (others E (ticks w) (os w)) !! l) ->
  iteration E d pid w = (Ok tt, slept E w [EvExists l true]).
Proof.
  intros Hl Hsome. unfold iteration. rewrite Hl.
  unfold bind, time_sleep, os_path_exists. cbn [os push].
  rewrite bool_decide_true by exact Hsome. reflexivity.
Qed.

Lemma iteration_lock_free (pid : Z) (w : world) (l : string) :
  lockfile d = Some l ->
  fs (others E (ticks w) (os w)) !! l = None ->
  iteration E d pid w =
  (os_kill pid ;; time_sleep E) (slept E w [EvExists l false]).
Proof.
  intros Hl Hnone. unfold iteration. rewrite Hl.
  unfold bind, time_sleep, os_path_exists. cbn [os push].
  rewrite bool_decide_false by (rewrite Hnone; intros [? ?]; discriminate).
  unfold slept, push, ret. cbn [List.app os self ticks nforks trace].
  destruct (os_kill pid _) as [[[] | e |] w1]; reflexivity.
Qed.

Lemma polite_app (lock : option string) (t1 t2 : list event) :
  polite lock t1 -> polite lock t2 -> polite lock (t2 ++ t1).
Proof.
  intros H1 H2. induction H2 as [| e t He H2 IH | p f l t Hl H2 IH | p f t Hl H2 IH].
  - exact H1.
  - apply polite_other; assumption.
  - apply polite_kill; assumption.
  - apply polite_direct; assumption.
Qed.

Lemma polite_harmless (lock : option string) (t : list event) :
  Forall (fun e => is_kill e = false) t -> polite lock t.
Proof.
  induction 1 as [| e t He Ht IH]; [apply polite_nil | apply polite_other; assumption].
Qed.

Lemma polite_guarded (l : string) (t : list event) :
  polite (Some l) t ->
  forall a p f b, t = a ++ EvKill p f :: b ->
    exists b', b = EvExists l false :: EvSleep :: b'.
Proof.
  induction 1 as [| e t He Ht IH | p0 f0 l0 t Hl Ht IH | p0 f0 t Hl Ht IH];
    intros a p f b Heq.
  - destruct a; discriminate.
  - destruct a as [| x a]; cbn [List.app] in Heq.
    + injection Heq as -> _. discriminate.
    + injection Heq as _ Heq. exact (IH _ _ _ _ Heq).
  - injection Hl as <-.
    destruct a as [| x a]; cbn [List.app] in Heq.
    + injection Heq as _ _ <-. eauto.
    + injection Heq as _ Heq.
      destruct a as [| y a]; cbn [List.app] in Heq; [discriminate |].
      injection Heq as _ Heq.
      destruct a as [| z a]; cbn [List.app] in Heq; [discriminate |].
      injection Heq as _ Heq. exact (IH _ _ _ _ Heq).
  - discriminate.
Qed.

Lemma quiet_app (t1 t2 : list event) : quiet t1 -> quiet t2 -> quiet (t2 ++ t1).
Proof.
  intros H1 H2 p err Hin. apply in_app_or in Hin as [Hin | Hin].
  - exact (H2 p err Hin).
  - exact (H1 p err Hin).
Qed.

Lemma quiet_harmless (t : list event) :
  Forall (fun e => is_kill e = false) t -> quiet t.
Proof.
  intros H p err Hin. rewrite List.Forall_forall in H. specialize (H _ Hin). discriminate.
Qed.

Lemma outcome_after (pid : Z) (r : result unit) (t1 t2 : list event) :
  quiet t1 -> outcome pid r t2 -> outcome pid r (t2 ++ t1).
Proof.
  intros H1. destruct r as [[] | [err | | | |] |]; cbn [outcome]; try tauto.
  - apply quiet_app, H1.
  - intros (t' & -> & Hq). exists (t' ++ t1). split; [reflexivity |].
    apply quiet_app; assumption.
  - intros [Hr Hq]. split; [exact Hr | apply quiet_app; assumption].
  - apply quiet_app, H1.
Qed.

(** One turn of the loop. *)
Lemma iteration_run (pid : Z) (w : world) :
  exists r w1 t,
    iteration E d pid w = (r, w1) /\
    trace w1 = t ++ trace w /\
    polite (lockfile d) t /\
    outcome pid r t /\
    r <> Spin.
Proof.
  assert (Hkill : forall w0 t0,
    trace w0 = t0 ++ trace w ->
    Forall (fun e => is_kill e = false) t0 ->
    (forall p f, polite (lockfile d) (EvKill p f :: t0)) ->
    exists r w1 t,
      (os_kill pid ;; time_sleep E) w0 = (r, w1) /\
      trace w1 = t ++ trace w /\
      polite (lockfile d) t /\ outcome pid r t /\ r <> Spin).
  { intros w0 t0 Ht0 Hh Hp. rewrite kill_then_sleep.
    destruct (pid_t_range pid) eqn:Hr.
    - destruct (procs (os w0) !! pid) as [[|] |].
      + eexists _, _, (EvSleep :: EvKill pid None :: t0). split; [reflexivity |].
        split; [cbn [slept push trace List.app]; rewrite Ht0; reflexivity |].
        split; [apply polite_other; [reflexivity | apply Hp] |].
        split; [| discriminate].
        intros p err [Hin | [Hin | Hin]]; try discriminate.
        exact (quiet_harmless t0 Hh p err Hin).
      + eexists _, _, (EvKill pid (Some EPERM) :: t0). split; [reflexivity |].
        split; [cbn [push trace]; rewrite Ht0; reflexivity |].
        split; [apply Hp |]. split; [| discriminate].
        exists t0. split; [reflexivity | apply quiet_harmless, Hh].
      + eexists _, _, (EvKill pid (Some ESRCH) :: t0). split; [reflexivity |].
        split; [cbn [push trace]; rewrite Ht0; reflexivity |].
        split; [apply Hp |]. split; [| discriminate].
        exists t0. split; [reflexivity | apply quiet_harmless, Hh].
    - eexists _, _, t0. split; [reflexivity |]. split; [exact Ht0 |].
      split; [apply polite_harmless, Hh |]. split; [| discriminate].
      split; [exact Hr | apply quiet_harmless, Hh]. }
  destruct (lockfile d) as [l |] eqn:Hl.
  - destruct (fs (others E (ticks w) (os w)) !! l) as [c |] eqn:Hfs.
    + rewrite (iteration_lock_held pid w l Hl) by (rewrite Hfs; eauto).
      eexists _, _, [EvExists l true; EvSleep]. split; [reflexivity |].
      split; [reflexivity |].
      split; [apply polite_harmless; repeat constructor |].
      split; [| discriminate].
      apply quiet_harmless; repeat constructor.
    + rewrite (iteration_lock_free pid w l Hl Hfs).
      apply (Hkill _ [EvExists l false; EvSleep]).
      * reflexivity.
      * repeat constructor.
      * intros p f. apply polite_kill; [reflexivity | apply polite_nil].
  - rewrite (iteration_no_lock pid w Hl).
    apply (Hkill w []).
    + reflexivity.
    + constructor.
    + intros p f. apply polite_direct; [reflexivity | apply polite_nil].
Qed.

(** Any number of turns. *)
Lemma kill_loop_run (fuel : nat) (pid : Z) : forall w,
  exists r w1 t,
    kill_loop E d fuel pid w = (r, w1) /\
    trace w1 = t ++ trace w /\
    polite (lockfile d) t /\
    outcome pid r t /\
    r <> Ok tt.
Proof.
  induction fuel as [| f IH]; intros w.
  - exists Spin, w, []. repeat split; try discriminate.
    + apply polite_nil.
    + intros p err [].
  - destruct (iteration_run pid w) as (r1 & w1 & t1 & Hit & Ht1 & Hp1 & Ho1 & Hns).
    cbn [kill_loop]. unfold bind. rewrite Hit.
    destruct r1 as [[] | e |].
    + destruct (IH w1) as (r2 & w2 & t2 & Hlp & Ht2 & Hp2 & Ho2 & Hnok).
      exists r2, w2, (t2 ++ t1). rewrite Hlp. split; [reflexivity |].
      split; [rewrite Ht2, Ht1; apply app_assoc |].
      split; [apply polite_app; assumption |].
      split; [apply outcome_after; assumption | exact Hnok].
    + exists (Raise e), w1, t1. repeat split; try assumption. discriminate.
    + congruence.
Qed.

(** *** [stop] after the loop *)

Lemma removal_trace (path : string) (w : world) :
  exists t, trace (removal path w) = t ++ trace w /\ Forall housekeeping t.
Proof.
  unfold removal. destruct (fs (os w) !! path).
  - exists [EvRemove path; EvExists path true]. split; [reflexivity |].
    repeat constructor.
  - exists [EvExists path false]. split; [reflexivity |]. repeat constructor.
Qed.

Lemma cleanup_run (w : world) : (delpid d ;; dellock d) w = (Ok tt, cleanup d w).
Proof.
  unfold bind. rewrite delpid_removal, dellock_removal. unfold cleanup.
  destruct (lockfile d); reflexivity.
Qed.

Lemma cleanup_trace (w : world) :
  exists t, trace (cleanup d w) = t ++ trace w /\ Forall housekeeping t.
Proof.
  unfold cleanup.
  destruct (removal_trace (pidfile d) w) as (t1 & H1 & Hh1).
  destruct (lockfile d) as [l |]; [| eauto].
  destruct (removal_trace l (removal (pidfile d) w)) as (t2 & H2 & Hh2).
  exists (t2 ++ t1). split.
  - rewrite H2, H1. apply app_assoc.
  - apply Forall_app; split; assumption.
Qed.

Lemma cleanup_files (w : world) :
  fs (os (cleanup d w)) !! pidfile d = None /\
  forall l, lockfile d = Some l -> fs (os (cleanup d w)) !! l = None.
Proof.
  unfold cleanup. destruct (lockfile d) as [l |].
  - split.
    + rewrite removal_fs, removal_fs.
      destruct (decide (l = pidfile d)) as [-> | Hne].
      * apply lookup_delete_eq.
      * rewrite lookup_delete_ne by exact Hne. apply lookup_delete_eq.
    + intros l' [= <-]. apply removal_gone.
  - split; [apply removal_gone | discriminate].
Qed.

Lemma housekeeping_harmless (t : list event) :
  Forall housekeeping t -> Forall (fun e => is_kill e = false) t.
Proof.
  induction 1 as [| e t He Ht IH]; constructor; [| exact IH].
  destruct e; try contradiction; reflexivity.
Qed.

Lemma finish_run (w : world) :
  (delpid d ;; dellock d ;; log2quiet 1071 (stopped_message d)) w = (Ok tt, stopped d w).
Proof.
  unfold bind. rewrite delpid_removal, dellock_removal. unfold stopped, cleanup.
  destruct (lockfile d); reflexivity.
Qed.

Lemma terminate_run (fuel : nat) (pid : Z) (w w1 : world) (r : result unit) :
  kill_loop E d fuel pid w = (r, w1) ->
  terminate E d fuel pid w =
  match r with
  | Ok _ => (Ok tt, stopped d w1)
  | Spin => (Spin, w1)
  | Raise (OSError err) =>
      if 0 <? Py.find (str_args err) "No such process"
      then (Ok tt, stopped d (cleanup d w1))
      else (Raise (Fatal 1068 (signal_message d err)),
            push (EvLog Die 1068 (signal_message d err)) w1)
  | Raise _ =>
      (Raise (Fatal 1066 (unknown_message d)),
       push (EvLog Die 1066 (unknown_message d)) w1)
  end.
Proof.
  intros H. unfold terminate. unfold bind at 1. unfold try_except. rewrite H.
  destruct r as [[] | [err | | | |] |]; try reflexivity.
  - apply finish_run.
  - destruct (0 <? Py.find (str_args err) "No such process").
    + rewrite cleanup_run. apply finish_run.
    + reflexivity.
Qed.

Lemma stop_with_pid (fuel : nat) (w : world) (c : string) (p : Z) :
  fs (os w) !! pidfile d = Some c -> Py.int (Py.strip c) = Some p -> p <> 0 ->
  stop E d fuel w = terminate E d fuel p (push (EvRead (pidfile d) true) w).
Proof.
  intros H Hc Hp. unfold stop. unfold bind at 1.
  rewrite (read_pid_parsed d w c p H Hc). cbn [Py.truthy negb].
  destruct (Z.eqb_spec p 0); [contradiction | reflexivity].
Qed.

(** The two ways [stop] can go: no PID to act on, or the loop. *)
Lemma stop_cases (fuel : nat) (w : world) :
  (exists r t,
      stop E d fuel w =
      (r, World (os w) (self w) (ticks w) (nforks w) (t ++ trace w)) /\
      Forall (fun e => is_kill e = false) t /\ r <> Spin /\
      forall c p, fs (os w) !! pidfile d = Some c ->
                  Py.int (Py.strip c) = Some p -> p = 0) \/
  (exists c p r0 w1 t1,
      fs (os w) !! pidfile d = Some c /\ Py.int (Py.strip c) = Some p /\ p <> 0 /\
      kill_loop E d fuel p (push (EvRead (pidfile d) true) w) = (r0, w1) /\
      trace w1 = t1 ++ EvRead (pidfile d) true :: trace w /\
      polite (lockfile d) t1 /\ outcome p r0 t1 /\ r0 <> Ok tt /\
      stop E d fuel w =
      match r0 with
      | Ok _ => (Ok tt, stopped d w1)
      | Spin => (Spin, w1)
      | Raise (OSError err) =>
          if 0 <? Py.find (str_args err) "No such process"
          then (Ok tt, stopped d (cleanup d w1))
          else (Raise (Fatal 1068 (signal_message d err)),
                push (EvLog Die 1068 (signal_message d err)) w1)
      | Raise _ =>
          (Raise (Fatal 1066 (unknown_message d)),
           push (EvLog Die 1066 (unknown_message d)) w1)
      end).
Proof.
  destruct (fs (os w) !! pidfile d) as [c |] eqn:H.
  - destruct (Py.int (Py.strip c)) as [p |] eqn:Hc.
    + destruct (Z.eq_dec p 0) as [-> | Hp].
      * left. exists (Ok tt), [EvLog Warn 1063 (missing_message d); EvRead (pidfile d) true].
        split; [apply (stop_zero_pid fuel w c H Hc) |].
        split; [repeat constructor |]. split; [discriminate |].
        intros c' p' [= <-] Hp'. congruence.
      * right.
        destruct (kill_loop_run fuel p (push (EvRead (pidfile d) true) w))
          as (r0 & w1 & t1 & Hlp & Ht1 & Hpol & Hout & Hnok).
        exists c, p, r0, w1, t1. repeat split; try assumption.
        rewrite (stop_with_pid fuel w c p H Hc Hp).
        apply terminate_run, Hlp.
    + left. exists (Raise ValueError), [EvRead (pidfile d) true].
      split; [unfold stop, bind; rewrite (read_pid_garbled d w c H Hc); reflexivity |].
      split; [repeat constructor |]. split; [discriminate |].
      intros c' p' [= <-] Hp'. congruence.
  - left. exists (Ok tt), [EvLog Warn 1063 (missing_message d); EvRead (pidfile d) false].
    split; [unfold stop, bind; rewrite (read_pid_absent d w H); reflexivity |].
    split; [repeat constructor |]. split; [discriminate |].
    intros c' p' [=].
Qed.

Ltac find_delta' Ht :=
  cbn [List.app] in Ht;
  lazymatch type of Ht with
  | ?full = ?t ++ ?tl =>
      let l := delta_of full tl in
      let H := fresh "Hdelta" in
      assert (H : t = l)
        by (apply (app_inv_tail tl); rewrite <- Ht;
            repeat (progress (rewrite <- ?List.app_assoc; cbn [List.app]));
            reflexivity);
      subst t
  end.

Lemma polite_stop (fuel : nat) (w w' : world) (r : result unit) (t : list event) :
  stop E d fuel w = (r, w') -> trace w' = t ++ trace w -> polite (lockfile d) t.
Proof.
  intros Hstop Ht.
  destruct (stop_cases fuel w)
    as [(r1 & t1 & Heq & Hh & _) |
        (c & p & r0 & w1 & t1 & _ & _ & _ & _ & Ht1 & Hpol & _ & _ & Heq)];
    rewrite Heq in Hstop.
  - injection Hstop as <- <-. cbn [trace] in Ht.
    apply app_inv_tail in Ht as <-. apply polite_harmless, Hh.
  - assert (Hread : polite (lockfile d) (t1 ++ [EvRead (pidfile d) true])).
    { apply polite_app; [| exact Hpol].
      apply polite_other; [reflexivity | apply polite_nil]. }
    destruct r0 as [[] | [err | | | |] |].
    2: destruct (0 <? Py.find (str_args err) "No such process").
    all: injection Hstop as <- <-.
    all: unfold stopped in Ht; cbn [push trace] in Ht.
    all: repeat match type of Ht with
           | context [trace (cleanup d ?x)] =>
               let tc := fresh "tc" in
               let Htc := fresh "Htc" in
               let Hh := fresh "Hh" in
               destruct (cleanup_trace x) as (tc & Htc & Hh);
               rewrite Htc in Ht;
               apply housekeeping_harmless in Hh
           end.
    all: rewrite Ht1 in Ht; find_delta' Ht.
    all: repeat first
           [ apply polite_other; [reflexivity |]
           | apply polite_app; [| apply polite_harmless; assumption] ].
    all: exact Hread.
Qed.

(** C4: with a lock file configured, every signal [stop()] sends comes
    straight after a sleep and a look at the lock file that found it
    gone (the trace has the newest call first, so these two are the
    calls just before the signal); and a turn of the loop that finds
    the lock file still there after its sleep sends nothing and goes
    round again. *)
Theorem stop_waits_for_lock
    (l : string) (fuel : nat) (w w' : world) (r : result unit) (t : list event) :
  lockfile d = Some l ->
  stop E d fuel w = (r, w') ->
  trace w' = t ++ trace w ->
  (forall a p f b,
      t = a ++ EvKill p f :: b ->
      exists b', b = EvExists l false :: EvSleep :: b') /\
  (forall pid w0,
      is_Some (fs (others E (ticks w0) (os w0)) !! l) ->
      iteration E d pid w0 =
      (Ok tt,
       World (others E (ticks w0) (os w0)) (self w0) (S (ticks w0)) (nforks w0)
             (EvExists l true :: EvSleep :: trace w0))).
Proof.
  intros Hl Hstop Ht. split.
  - apply polite_guarded. rewrite <- Hl. exact (polite_stop fuel w w' r t Hstop Ht).
  - intros pid w0 Hsome. apply (iteration_lock_held pid w0 l Hl Hsome).
Qed.

Lemma removal_calls (path : string) (w : world) :
  trace (removal path w) = probe path (fs (os w)) ++ trace w.
Proof. unfold removal, probe. destruct (fs (os w) !! path); reflexivity. Qed.

Lemma cleanup_calls_trace (w : world) :
  trace (cleanup d w) = cleanup_calls d (fs (os w)) ++ trace w.
Proof.
  unfold cleanup, cleanup_calls. destruct (lockfile d) as [l |].
  - rewrite removal_calls, removal_calls, removal_fs. apply app_assoc.
  - apply removal_calls.
Qed.

Lemma cleanup_fs (w : world) : fs (os (cleanup d w)) = cleaned d (fs (os w)).
Proof.
  unfold cleanup, cleaned. destruct (lockfile d); rewrite ?removal_fs; reflexivity.
Qed.

Lemma cleaned_twice (files : gmap string string) :
  cleaned d (cleaned d files) = cleaned d files.
Proof.
  unfold cleaned. destruct (lockfile d) as [l |].
  - rewrite (delete_delete (delete (pidfile d) files) (pidfile d) l).
    rewrite delete_delete_eq.
    rewrite (delete_delete files l (pidfile d)).
    rewrite delete_delete_eq. apply delete_delete.
  - apply delete_delete_eq.
Qed.

Lemma cleanup_calls_no_kill (files : gmap string string) (p : Z) (f : option errno) :
  ~ In (EvKill p f) (cleanup_calls d files).
Proof.
  unfold cleanup_calls, probe. intros Hin.
  destruct (lockfile d) as [l |];
    [destruct (delete (pidfile d) files !! l) |];
    destruct (files !! pidfile d);
    cbn [List.app In] in Hin;
    repeat (destruct Hin as [Hin | Hin]; [discriminate Hin |]); exact Hin.
Qed.

(** With a lock file configured, a turn of the loop that ends in an
    exception has just seen the lock file gone, and so has the loop. *)
Lemma iteration_raise_lock (pid : Z) (w w1 : world) (e : exn) (l : string) :
  lockfile d = Some l ->
  iteration E d pid w = (Raise e, w1) ->
  fs (os w1) !! l = None.
Proof.
  intros Hl Hit.
  destruct (fs (others E (ticks w) (os w)) !! l) as [c |] eqn:Hfs.
  - rewrite (iteration_lock_held pid w l Hl) in Hit by (rewrite Hfs; eauto).
    discriminate.
  - rewrite (iteration_lock_free pid w l Hl Hfs), kill_then_sleep in Hit.
    destruct (pid_t_range pid);
      [destruct (procs (os (slept E w [EvExists l false])) !! pid) as [[|] |] |];
      try discriminate; injection Hit as _ <-; exact Hfs.
Qed.

Lemma kill_loop_raise_lock (fuel : nat) (pid : Z) (l : string) :
  lockfile d = Some l ->
  forall (w w1 : world) (e : exn),
    kill_loop E d fuel pid w = (Raise e, w1) -> fs (os w1) !! l = None.
Proof.
  intros Hl. induction fuel as [| f IH]; intros w w1 e H.
  - discriminate.
  - cbn [kill_loop] in H. unfold bind in H.
    destruct (iteration E d pid w) as [[[] | e0 |] w0] eqn:Hit.
    + exact (IH _ _ _ H).
    + injection H as <- <-. exact (iteration_raise_lock pid w w0 e0 l Hl Hit).
    + discriminate.
Qed.

(** C3: if one of the signals [stop()] sent failed with "No such
    process", then [stop()] returns normally and the PID file and the
    configured lock file are gone.  That signal was the last one: in
    the state [wk] it failed in (where a configured lock file had just
    been seen gone), [stop()] went on to run [delpid()], [dellock()],
    [delpid()], [dellock()] and the log entry 1071 "Daemon Stopped".
    The calls these made are listed (newest first): each [dellock()]
    with a lock file configured tests that file with
    [os.path.exists], each [delpid()] tests the PID file, and a file
    that is found is removed; the files left are those of [wk] less
    the PID file and the lock file. *)
Theorem stop_cleans_up_after_dead_process
    (fuel : nat) (w w' : world) (r : result unit) (t : list event) (p : Z) :
  stop E d fuel w = (r, w') ->
  trace w' = t ++ trace w ->
  In (EvKill p (Some ESRCH)) t ->
  r = Ok tt /\
  fs (os w') !! pidfile d = None /\
  (forall l, lockfile d = Some l -> fs (os w') !! l = None) /\
  (exists t' wk,
     trace wk = EvKill p (Some ESRCH) :: t' ++ trace w /\
     (forall l, lockfile d = Some l -> fs (os wk) !! l = None) /\
     (delpid d ;; dellock d ;; delpid d ;; dellock d ;;
      log2quiet 1071 (stopped_message d)) wk = (Ok tt, w') /\
     t = EvLog Quiet 1071 (stopped_message d)
         :: cleanup_calls d (cleaned d (fs (os wk)))
         ++ cleanup_calls d (fs (os wk))
         ++ EvKill p (Some ESRCH) :: t' /\
     fs (os w') = cleaned d (fs (os wk))).
Proof.
  intros Hstop Ht Hin.
  destruct (stop_cases fuel w)
    as [(r1 & t1 & Heq & Hh & _) |
        (c & p0 & r0 & w1 & t1 & _ & _ & _ & Hloop & Ht1 & _ & Hout & _ & Heq)];
    rewrite Heq in Hstop.
  - injection Hstop as <- <-. cbn [trace] in Ht.
    apply app_inv_tail in Ht as <-.
    destruct (quiet_harmless t1 Hh p ESRCH Hin).
  - assert (Hno : forall t0, quiet t0 -> ~ In (EvKill p (Some ESRCH)) t0)
      by (intros t0 Hq; apply Hq).
    destruct r0 as [[] | [err | | | |] |]; cbn [outcome] in Hout; try contradiction.
    + (* the loop cannot return normally, and would have been quiet *)
      injection Hstop as <- <-. unfold stopped in Ht. cbn [push trace] in Ht.
      destruct (cleanup_trace w1) as (tc & Htc & Hhk). rewrite Htc, Ht1 in Ht.
      find_delta' Ht. exfalso.
      destruct Hin as [Hin | Hin]; [discriminate |].
      apply in_app_or in Hin as [Hin | Hin].
      * exact (quiet_harmless tc (housekeeping_harmless tc Hhk) p ESRCH Hin).
      * apply in_app_or in Hin as [Hin | [Hin | []]]; [| discriminate].
        exact (Hout p ESRCH Hin).
    + destruct Hout as (t1' & -> & Hq).
      destruct (0 <? Py.find (str_args err) "No such process") eqn:Hfind.
      * injection Hstop as <- <-. unfold stopped in *. cbn [push trace os] in *.
        destruct (cleanup_files (cleanup d w1)) as [Hpf Hlf].
        rewrite (cleanup_calls_trace (cleanup d w1)), (cleanup_calls_trace w1),
          cleanup_fs, Ht1 in Ht.
        find_delta' Ht.
        assert (Hsame : EvKill p0 (Some err) = EvKill p (Some ESRCH)).
        { destruct Hin as [Hin | Hin]; [discriminate |].
          apply in_app_or in Hin as [Hin | Hin];
            [destruct (cleanup_calls_no_kill _ _ _ Hin) |].
          apply in_app_or in Hin as [Hin | Hin];
            [destruct (cleanup_calls_no_kill _ _ _ Hin) |].
          destruct Hin as [Hin | Hin]; [exact Hin |].
          apply in_app_or in Hin as [Hin | [Hin | []]]; [| discriminate].
          destruct (Hq p ESRCH Hin). }
        injection Hsame as -> ->.
        split; [reflexivity |]. split; [exact Hpf |]. split; [exact Hlf |].
        exists (t1' ++ [EvRead (pidfile d) true]), w1.
        split; [rewrite Ht1; cbn [List.app]; rewrite <- List.app_assoc; reflexivity |].
        split; [intros l Hl; exact (kill_loop_raise_lock fuel p l Hl _ _ _ Hloop) |].
        split.
        { unfold bind at 1. rewrite delpid_removal.
          unfold bind at 1. rewrite dellock_removal.
          exact (finish_run (cleanup d w1)). }
        split; [reflexivity |].
        rewrite cleanup_fs, cleanup_fs. apply cleaned_twice.
      * injection Hstop as <- <-. cbn [push trace] in Ht. rewrite Ht1 in Ht.
        find_delta' Ht. exfalso.
        destruct Hin as [Hin | [Hin | Hin]]; [discriminate | |].
        -- injection Hin as _ ->. vm_compute in Hfind. discriminate.
        -- apply in_app_or in Hin as [Hin | [Hin | []]]; [| discriminate].
           exact (Hq p ESRCH Hin).
    + destruct Hout as [_ Hq].
      injection Hstop as <- <-. cbn [push trace] in Ht. rewrite Ht1 in Ht.
      find_delta' Ht. exfalso.
      destruct Hin as [Hin | Hin]; [discriminate |].
      apply in_app_or in Hin as [Hin | [Hin | []]]; [| discriminate].
      exact (Hq p ESRCH Hin).
    + injection Hstop as <- <-. rewrite Ht1 in Ht. find_delta' Ht. exfalso.
      apply in_app_or in Hin as [Hin | [Hin | []]]; [| discriminate].
      exact (Hout p ESRCH Hin).
Qed.

Lemma kill_loop_spins (pid : Z) (fuel : nat) : forall w,
  (forall n, busy d pid (drift E n (ticks w) (os w))) ->
  exists w1, kill_loop E d fuel pid w = (Spin, w1).
Proof.
  induction fuel as [| f IH]; intros w Hbusy; [eexists; reflexivity |].
  cbn [kill_loop]. unfold bind.
  destruct (lockfile d) as [l |] eqn:Hl.
  - destruct (fs (others E (ticks w) (os w)) !! l) as [c |] eqn:Hfs.
    + rewrite (iteration_lock_held pid w l Hl) by (rewrite Hfs; eauto).
      apply IH. intros n. exact (Hbusy (S n)).
    + rewrite (iteration_lock_free pid w l Hl Hfs), kill_then_sleep.
      destruct (Hbusy 1%nat) as [(l' & Hl' & Hsome) | [Hr Hp]].
      { rewrite Hl in Hl'. injection Hl' as <-. cbn [drift] in Hsome. rewrite Hfs in Hsome.
        destruct Hsome; discriminate. }
      cbn [drift] in Hp. rewrite Hr. cbn [slept os]. rewrite Hp.
      apply IH. intros n. exact (Hbusy (S (S n))).
  - rewrite (iteration_no_lock pid w Hl), kill_then_sleep.
    destruct (Hbusy 0%nat) as [(l' & Hl' & _) | [Hr Hp]]; [congruence |].
    cbn [drift] in Hp. rewrite Hr, Hp.
    apply IH. intros n. exact (Hbusy (S n)).
Qed.

(** C9 (as the code has it): once [stop()] has a PID to act on, it ends
    only through [os.kill] raising: whenever it has ended, the PID was
    out of the range of a C int (so that [os.kill] raised before
    sending) or a signal to that PID failed.  And while at every sleep
    the lock file is still there, or the target is still there and
    accepts the signal, [stop()] is still looping after any number of
    turns.  That the target is still there is not enough: a target that
    refuses the signal ends the loop. *)
Theorem stop_has_no_timeout (w : world) (c : string) (p : Z) :
  fs (os w) !! pidfile d = Some c ->
  Py.int (Py.strip c) = Some p ->
  p <> 0 ->
  (forall fuel r w' t,
      stop E d fuel w = (r, w') -> trace w' = t ++ trace w -> r <> Spin ->
      pid_t_range p = false \/ exists err, In (EvKill p (Some err)) t) /\
  ((forall n, busy d p (drift E n (ticks w) (os w))) ->
   forall fuel, fst (stop E d fuel w) = Spin).
Proof.
  intros H Hc Hp. split.
  - intros fuel r w' t Hstop Ht Hr.
    destruct (stop_cases fuel w)
      as [(r1 & t1 & _ & _ & _ & Hzero) |
          (c0 & p0 & r0 & w1 & t1 & H0 & Hc0 & _ & _ & Ht1 & _ & Hout & Hnok & Heq)].
    { destruct Hp. exact (Hzero c p H Hc). }
    rewrite H in H0. injection H0 as <-. rewrite Hc in Hc0. injection Hc0 as <-.
    rewrite Heq in Hstop.
    destruct r0 as [[] | [err | | | |] |]; cbn [outcome] in Hout; try contradiction.
    + right. exists err. destruct Hout as (t1' & -> & _).
      destruct (0 <? Py.find (str_args err) "No such process").
      * injection Hstop as <- <-. unfold stopped in Ht. cbn [push trace] in Ht.
        destruct (cleanup_trace (cleanup d w1)) as (tc2 & Htc2 & _).
        destruct (cleanup_trace w1) as (tc1 & Htc1 & _).
        rewrite Htc2, Htc1, Ht1 in Ht. find_delta' Ht.
        right. apply in_or_app. right. apply in_or_app. right. left. reflexivity.
      * injection Hstop as <- <-. cbn [push trace] in Ht. rewrite Ht1 in Ht.
        find_delta' Ht. right. left. reflexivity.
    + left. exact (proj1 Hout).
    + injection Hstop as <- _. congruence.
  - intros Hbusy fuel.
    rewrite (stop_with_pid fuel w c p H Hc Hp).
    destruct (kill_loop_spins p fuel (push (EvRead (pidfile d) true) w) Hbusy)
      as (w1 & Hlp).
    rewrite (terminate_run fuel p _ w1 Spin Hlp). reflexivity.
Qed.

End Claims.

(** ** The properties on concrete machines *)

Lemma drift_still (n k : nat) (m : machine) : drift still_env n k m = m.
Proof. revert k. induction n as [| n IH]; intros k; [reflexivity | apply IH]. Qed.

Lemma stop_without_usable_pid_witness :
  (fs (os empty_world) !! pidfile plain_daemon = None /\
   fst (stop still_env plain_daemon 3 empty_world) = Ok tt) /\
  (fs (os garbled_world) !! pidfile plain_daemon = Some "abc" /\
   Py.int (Py.strip "abc") = None /\
   fst (stop still_env plain_daemon 3 garbled_world) = Raise ValueError).
Proof.
  split.
  - split; [reflexivity |].
    destruct (stop_without_usable_pid still_env plain_daemon 3 empty_world
                (or_introl eq_refl)) as [[_ ->] | [Hsome _]].
    + reflexivity.
    + vm_compute in Hsome. destruct Hsome; discriminate.
  - split; [reflexivity |]. split; [reflexivity |].
    destruct (stop_without_usable_pid still_env plain_daemon 3 garbled_world
                (or_intror (ex_intro _ "abc" (conj eq_refl eq_refl))))
      as [[Hnone _] | [_ ->]].
    + vm_compute in Hnone. discriminate.
    + reflexivity.
Defined.

(** C1, as the spec has it, fails: a PID file that holds no integer makes
    [stop()] raise [ValueError]; it does not return and logs no warning. *)
Lemma stop_garbled_pid_raises :
  fs (os garbled_world) !! pidfile plain_daemon = Some "abc" /\
  Py.int (Py.strip "abc") = None /\
  stop still_env plain_daemon 3 garbled_world =
  (Raise ValueError,
   World (os garbled_world) 1%positive 0 0 [EvRead pid_path true]) /\
  fst (stop still_env plain_daemon 3 garbled_world) <> Ok tt /\
  ~ In (EvLog Warn 1063 (missing_message plain_daemon))
       (trace (snd (stop still_env plain_daemon 3 garbled_world))).
Proof.
  split; [reflexivity |]. split; [reflexivity |]. split; [reflexivity |].
  split; [discriminate |].
  intros [H | []]. discriminate.
Qed.

Lemma start_refuses_recorded_pid_witness :
  fs (os taken_world) !! pidfile plain_daemon = Some ("77" +:+ nl) /\
  Py.int (Py.strip ("77" +:+ nl)) <> Some 0 /\
  fst (start still_env plain_daemon taken_world) =
  Raise (Fatal 1062 (exists_message plain_daemon)).
Proof.
  split; [reflexivity |]. split; [discriminate |].
  destruct (start_refuses_recorded_pid still_env plain_daemon taken_world
              ("77" +:+ nl) eq_refl ltac:(discriminate))
    as (e & t & -> & [(n & _ & -> & _) | (Hnone & _)]).
  - reflexivity.
  - discriminate.
Defined.

(** C2, as the spec has it, fails: with a PID file that holds 0,
    [start()] forks twice, overwrites the PID file and invokes [run()]. *)
Lemma start_zero_pid_daemonizes :
  fs (os zero_world) !! pidfile plain_daemon = Some ("0" +:+ nl) /\
  fst (start still_env plain_daemon zero_world) = Ok tt /\
  In (EvFork (ForkChild 4001)) (trace (snd (start still_env plain_daemon zero_world))) /\
  In (EvWrite pid_path ("4001" +:+ nl))
     (trace (snd (start still_env plain_daemon zero_world))) /\
  In EvRun (trace (snd (start still_env plain_daemon zero_world))) /\
  fs (os (snd (start still_env plain_daemon zero_world))) !! pid_path
  = Some ("4001" +:+ nl).
Proof.
  vm_compute. repeat split; auto 20.
Qed.

Lemma stop_cleans_up_after_dead_process_witness :
  In (EvKill 77 (Some ESRCH))
     (trace (snd (stop release_env locking_daemon 10 working_world))) /\
  fst (stop release_env locking_daemon 10 working_world) = Ok tt /\
  fs (os (snd (stop release_env locking_daemon 10 working_world))) !! pid_path = None /\
  fs (os (snd (stop release_env locking_daemon 10 working_world))) !! lock_path = None /\
  (exists t' files,
      files !! lock_path = None /\
      trace (snd (stop release_env locking_daemon 10 working_world)) =
      EvLog Quiet 1071 (stopped_message locking_daemon)
      :: cleanup_calls locking_daemon (cleaned locking_daemon files)
      ++ cleanup_calls locking_daemon files
      ++ EvKill 77 (Some ESRCH) :: t') /\
  firstn 7 (trace (snd (stop release_env locking_daemon 10 working_world))) =
  [EvLog Quiet 1071 (stopped_message locking_daemon);
   EvExists lock_path false; EvExists pid_path false;
   EvExists lock_path false; EvRemove pid_path; EvExists pid_path true;
   EvKill 77 (Some ESRCH)].
Proof.
  assert (Hin : In (EvKill 77 (Some ESRCH))
                   (trace (snd (stop release_env locking_daemon 10 working_world))))
    by (vm_compute; auto 20).
  split; [exact Hin |].
  destruct (stop_cleans_up_after_dead_process release_env locking_daemon 10
              working_world _ _ _ 77
              (surjective_pairing _) (eq_sym (app_nil_r _)) Hin)
    as (Hr & Hp & Hl & t' & wk & _ & Hgone & _ & Hcalls & _).
  split; [exact Hr |]. split; [exact Hp |]. split; [apply Hl; reflexivity |].
  split; [| reflexivity].
  exists t', (fs (os wk)). split; [apply Hgone; reflexivity | exact Hcalls].
Defined.

Lemma stop_waits_for_lock_witness :
  lockfile locking_daemon = Some lock_path /\
  forall a p f b,
    trace (snd (stop release_env locking_daemon 10 working_world))
    = a ++ EvKill p f :: b ->
    exists b', b = EvExists lock_path false :: EvSleep :: b'.
Proof.
  split; [reflexivity |].
  exact (proj1 (stop_waits_for_lock release_env locking_daemon lock_path 10
                  working_world _ _ _
                  eq_refl (surjective_pairing _) (eq_sym (app_nil_r _)))).
Defined.

Lemma start_writes_pid_after_detaching_witness :
  In EvRun (trace (snd (start still_env plain_daemon empty_world))) /\
  exists me,
    self (snd (start still_env plain_daemon empty_world)) = me /\
    In (EvWrite pid_path (Py.str (Z.pos me) +:+ nl))
       (rev (trace (snd (start still_env plain_daemon empty_world)))) /\
    Py.int (Py.strip (Py.str (Z.pos me) +:+ nl)) = Some (Z.pos me).
Proof.
  assert (Hin : In EvRun (trace (snd (start still_env plain_daemon empty_world))))
    by (vm_compute; auto 20).
  split; [exact Hin |].
  destruct (start_writes_pid_after_detaching still_env plain_daemon empty_world
              _ _ _ (surjective_pairing _) (eq_sym (app_nil_r _)) Hin)
    as (found & c1 & me & Hrev & Hself & Hint & _).
  exists me. split; [exact Hself |]. split; [| exact Hint].
  rewrite Hrev. cbn [In]. auto 20.
Defined.

Lemma fork_failure_is_fatal_witness :
  no_pid_recorded plain_daemon empty_world /\
  fork_outcome fork1_fails 0 = ForkError EAGAIN /\
  fork_outcome fork2_fails 0 = ForkChild 4001 /\
  fork_outcome fork2_fails 1 = ForkError ENOMEM /\
  fst (start fork1_fails plain_daemon empty_world)
  = Raise (Fatal 1060 (fork1_message plain_daemon EAGAIN)) /\
  fst (start fork2_fails plain_daemon empty_world)
  = Raise (Fatal 1061 (fork2_message plain_daemon ENOMEM)).
Proof.
  assert (Hpid : no_pid_recorded plain_daemon empty_world) by (left; reflexivity).
  split; [exact Hpid |]. do 3 (split; [reflexivity |]). split.
  - destruct (fork_failure_is_fatal fork1_fails plain_daemon empty_world EAGAIN
                Hpid (or_introl eq_refl))
      as (code & msg & w' & -> & _ & _ & [(_ & -> & ->) | (Hne & _)] & _).
    + reflexivity.
    + destruct Hne. reflexivity.
  - destruct (fork_failure_is_fatal fork2_fails plain_daemon empty_world ENOMEM
                Hpid (or_intror (ex_intro _ 4001%positive (conj eq_refl eq_refl))))
      as (code & msg & w' & -> & _ & _ & [(Hfail & _) | (_ & -> & ->)] & _).
    + discriminate Hfail.
    + reflexivity.
Defined.

Lemma stop_has_no_timeout_witness :
  (forall n, busy locking_daemon 77 (drift still_env n 0 (os working_world))) /\
  (forall n, busy plain_daemon 77 (drift still_env n 0 (os taken_world))) /\
  (forall fuel, fst (stop still_env locking_daemon fuel working_world) = Spin) /\
  (forall fuel, fst (stop still_env plain_daemon fuel taken_world) = Spin).
Proof.
  assert (H1 : forall n, busy locking_daemon 77 (drift still_env n 0 (os working_world))).
  { intros n. rewrite drift_still. left. exists lock_path. split; [reflexivity |].
    exists EmptyString. reflexivity. }
  assert (H2 : forall n, busy plain_daemon 77 (drift still_env n 0 (os taken_world))).
  { intros n. rewrite drift_still. right. split; reflexivity. }
  split; [exact H1 |]. split; [exact H2 |]. split.
  - exact (proj2 (stop_has_no_timeout still_env locking_daemon working_world
                    ("77" +:+ nl) 77 eq_refl eq_refl ltac:(discriminate)) H1).
  - exact (proj2 (stop_has_no_timeout still_env plain_daemon taken_world
                    ("77" +:+ nl) 77 eq_refl eq_refl ltac:(discriminate)) H2).
Defined.

(** C9, as the spec has it, fails: with no lock file configured and a
    target that is there at every sleep but belongs to somebody else,
    the first signal is refused ("Operation not permitted") and
    [stop()] ends at once in the fatal error 1068, whatever number of
    turns the loop is given. *)
Lemma stop_ends_on_refusing_target :
  lockfile plain_daemon = None /\
  fs (os foreign_world) !! pidfile plain_daemon = Some ("77" +:+ nl) /\
  Py.int (Py.strip ("77" +:+ nl)) = Some 77 /\
  (forall n, is_Some (procs (drift still_env n 0 (os foreign_world)) !! 77)) /\
  forall fuel,
    stop still_env plain_daemon (S fuel) foreign_world =
    (Raise (Fatal 1068 (signal_message plain_daemon EPERM)),
     World (os foreign_world) 1%positive 0 0
           [EvLog Die 1068 (signal_message plain_daemon EPERM);
            EvKill 77 (Some EPERM); EvRead pid_path true]) /\
    fst (stop still_env plain_daemon (S fuel) foreign_world) <> Spin.
Proof.
  split; [reflexivity |]. split; [reflexivity |]. split; [reflexivity |].
  split.
  - intros n. rewrite drift_still. exists false. reflexivity.
  - intros fuel.
    assert (Hstop : stop still_env plain_daemon (S fuel) foreign_world =
                    (Raise (Fatal 1068 (signal_message plain_daemon EPERM)),
                     World (os foreign_world) 1%positive 0 0
                           [EvLog Die 1068 (signal_message plain_daemon EPERM);
                            EvKill 77 (Some EPERM); EvRead pid_path true])).
    { rewrite (stop_with_pid still_env plain_daemon (S fuel) foreign_world
                 ("77" +:+ nl) 77 eq_refl eq_refl ltac:(discriminate)).
      assert (Hloop :
        kill_loop still_env plain_daemon (S fuel) 77
          (push (EvRead (pidfile plain_daemon) true) foreign_world) =
        (Raise (OSError EPERM),
         push (EvKill 77 (Some EPERM))
              (push (EvRead (pidfile plain_daemon) true) foreign_world))).
      { cbn [kill_loop]. unfold bind.
        rewrite (iteration_no_lock still_env plain_daemon 77 _ eq_refl).
        rewrite kill_then_sleep. reflexivity. }
      rewrite (terminate_run still_env plain_daemon (S fuel) 77 _ _ _ Hloop).
      reflexivity. }
    split; [exact Hstop |]. rewrite Hstop. discriminate.
Qed.

(** ** The remaining paths of [stop], [start], [restart] and [force] *)

Section Further.

Variable E : environment.
Variable d : Daemon.

Ltac since t tl :=
  lazymatch t with
  | tl => constr:(@nil event)
  | ?e :: ?r => let l := since r tl in constr:(e :: l)
  | ?a ++ ?r => let l := since r tl in constr:(a ++ l)
  end.

Ltac name_trace Ht :=
  cbn [List.app] in Ht;
  lazymatch type of Ht with
  | ?full = ?t ++ ?tl =>
      let l := since full tl in
      let H := fresh "Hsince" in
      assert (H : t = l)
        by (apply (app_inv_tail tl); rewrite <- Ht;
            repeat (progress (rewrite <- ?List.app_assoc; cbn [List.app]));
            reflexivity);
      subst t
  end.

Lemma loop_event_stop (pid : Z) (t : list event) :
  Forall (loop_event d pid) t -> Forall (stop_event d pid) t.
Proof.
  induction 1 as [| e t He Ht IH]; constructor; [| exact IH].
  destruct e; try contradiction; cbn in *; try exact I; try assumption.
  right. exact He.
Qed.

Lemma cleanup_event_stop (pid : Z) (t : list event) :
  Forall (cleanup_event d) t -> Forall (stop_event d pid) t.
Proof.
  induction 1 as [| e t He Ht IH]; constructor; [| exact IH].
  destruct e; try contradiction; exact He.
Qed.

Lemma removal_own (path : string) (w : world) :
  own_file d path ->
  exists t, trace (removal path w) = t ++ trace w /\ Forall (cleanup_event d) t.
Proof.
  intros Hown. unfold removal. destruct (fs (os w) !! path).
  - exists [EvRemove path; EvExists path true]. split; [reflexivity |].
    apply List.Forall_cons; [exact Hown |].
    apply List.Forall_cons; [exact Hown | apply List.Forall_nil].
  - exists [EvExists path false]. split; [reflexivity |].
    apply List.Forall_cons; [exact Hown | apply List.Forall_nil].
Qed.

Lemma cleanup_own (w : world) :
  exists t, trace (cleanup d w) = t ++ trace w /\ Forall (cleanup_event d) t.
Proof.
  unfold cleanup.
  destruct (removal_own (pidfile d) w (or_introl eq_refl)) as (t1 & H1 & Hh1).
  destruct (lockfile d) as [l |] eqn:Hl; [| eauto].
  destruct (removal_own l (removal (pidfile d) w)) as (t2 & H2 & Hh2).
  { right. exact Hl. }
  exists (t2 ++ t1). split.
  - rewrite H2, H1. apply app_assoc.
  - apply Forall_app; split; assumption.
Qed.

(** One turn of the loop makes loop calls only. *)
Lemma iteration_events (pid : Z) (w : world) :
  exists t,
    trace (snd (iteration E d pid w)) = t ++ trace w /\
    Forall (loop_event d pid) t.
Proof.
  assert (Hkill : forall w0 t0,
    trace w0 = t0 ++ trace w -> Forall (loop_event d pid) t0 ->
    exists t, trace (snd ((os_kill pid ;; time_sleep E) w0)) = t ++ trace w /\
              Forall (loop_event d pid) t).
  { intros w0 t0 Ht0 Hl0. rewrite kill_then_sleep.
    destruct (pid_t_range pid).
    - destruct (procs (os w0) !! pid) as [[|] |].
      + exists (EvSleep :: EvKill pid None :: t0).
        split; [cbn [snd slept push trace List.app]; rewrite Ht0; reflexivity |].
        repeat constructor; assumption.
      + exists (EvKill pid (Some EPERM) :: t0).
        split; [cbn [snd push trace]; rewrite Ht0; reflexivity |].
        repeat constructor; assumption.
      + exists (EvKill pid (Some ESRCH) :: t0).
        split; [cbn [snd push trace]; rewrite Ht0; reflexivity |].
        repeat constructor; assumption.
    - exists t0. split; [exact Ht0 | exact Hl0]. }
  destruct (lockfile d) as [l |] eqn:Hl.
  - destruct (fs (others E (ticks w) (os w)) !! l) as [c |] eqn:Hfs.
    + rewrite (iteration_lock_held E d pid w l Hl) by (rewrite Hfs; eauto).
      exists [EvExists l true; EvSleep]. split; [reflexivity |].
      repeat constructor. cbn. exact Hl.
    + rewrite (iteration_lock_free E d pid w l Hl Hfs).
      apply (Hkill _ [EvExists l false; EvSleep]); [reflexivity |].
      repeat constructor. cbn. exact Hl.
  - rewrite (iteration_no_lock E d pid w Hl).
    apply (Hkill w []); [reflexivity | constructor].
Qed.

Lemma kill_loop_events (fuel : nat) (pid : Z) : forall w,
  exists t,
    trace (snd (kill_loop E d fuel pid w)) = t ++ trace w /\
    Forall (loop_event d pid) t.
Proof.
  induction fuel as [| f IH]; intros w.
  - exists []. split; [reflexivity | constructor].
  - destruct (iteration_events pid w) as (t1 & Ht1 & Hl1).
    cbn [kill_loop]. unfold bind.
    destruct (iteration E d pid w) as [[[] | e |] w1]; cbn [snd] in *.
    + destruct (IH w1) as (t2 & Ht2 & Hl2).
      exists (t2 ++ t1). split.
      * rewrite Ht2, Ht1. apply app_assoc.
      * apply Forall_app; split; assumption.
    + exists t1. split; assumption.
    + exists t1. split; assumption.
Qed.

(** All the calls of [stop]. *)
Lemma stop_events (fuel : nat) (w w' : world) (r : result unit) (t : list event) :
  stop E d fuel w = (r, w') ->
  trace w' = t ++ trace w ->
  exists p,
    Forall (stop_event d p) t /\
    ((exists c, fs (os w) !! pidfile d = Some c /\
                Py.int (Py.strip c) = Some p /\ p <> 0) \/
     Forall (fun e => is_kill e = false) t).
Proof.
  intros Hstop Ht.
  destruct (fs (os w) !! pidfile d) as [c |] eqn:Hc.
  2: { exists 0. unfold stop, bind in Hstop.
       rewrite (read_pid_absent d w Hc) in Hstop.
       injection Hstop as <- <-. cbn [trace push] in Ht. name_trace Ht.
       split; [| right]; repeat (apply List.Forall_cons; [first [reflexivity | exact I] |]);
         apply List.Forall_nil. }
  destruct (Py.int (Py.strip c)) as [p |] eqn:Hint.
  2: { exists 0. unfold stop, bind in Hstop.
       rewrite (read_pid_garbled d w c Hc Hint) in Hstop.
       injection Hstop as <- <-. cbn [trace push] in Ht. name_trace Ht.
       split; [| right]; repeat (apply List.Forall_cons; [first [reflexivity | exact I] |]);
         apply List.Forall_nil. }
  destruct (Z.eq_dec p 0) as [-> | Hp].
  { exists 0. rewrite (stop_zero_pid E d fuel w c Hc Hint) in Hstop.
    injection Hstop as <- <-. cbn [trace] in Ht. name_trace Ht.
    split; [| right]; repeat (apply List.Forall_cons; [first [reflexivity | exact I] |]);
      apply List.Forall_nil. }
  exists p. split; [| left; eauto].
  destruct (kill_loop_run E d fuel p (push (EvRead (pidfile d) true) w))
    as (r0 & w1 & t1 & Hlp & Ht1 & _).
  destruct (kill_loop_events fuel p (push (EvRead (pidfile d) true) w))
    as (tl & Htl & Hloop).
  rewrite Hlp in Htl. cbn [snd] in Htl. rewrite Ht1 in Htl.
  apply app_inv_tail in Htl as <-.
  apply loop_event_stop in Hloop.
  rewrite (stop_with_pid E d fuel w c p Hc Hint Hp) in Hstop.
  rewrite (terminate_run E d fuel p _ w1 r0 Hlp) in Hstop.
  assert (Hread : Forall (stop_event d p) (t1 ++ [EvRead (pidfile d) true])).
  { apply Forall_app; split; [exact Hloop |].
    apply List.Forall_cons; [reflexivity | apply List.Forall_nil]. }
  cbn [push trace] in Ht1.
  destruct r0 as [[] | [err | | | |] |].
  2: destruct (0 <? Py.find (str_args err) "No such process").
  all: injection Hstop as <- <-.
  all: unfold stopped in Ht; cbn [push trace] in Ht.
  all: repeat match type of Ht with
         | context [trace (cleanup d ?x)] =>
             let tc := fresh "tc" in
             let Htc := fresh "Htc" in
             let Hh := fresh "Hh" in
             destruct (cleanup_own x) as (tc & Htc & Hh);
             rewrite Htc in Ht;
             apply (cleanup_event_stop p) in Hh
         end.
  all: rewrite Ht1 in Ht; name_trace Ht.
  all: repeat first
         [ apply List.Forall_cons; [exact I |]
         | apply Forall_app; split; [assumption |] ].
  all: first [ exact Hread
             | apply List.Forall_cons; [reflexivity | apply List.Forall_nil] ].
Qed.

(** X1: [stop()] makes no call besides reading the PID file, sleeping,
    testing for and removing its own two files, signalling and logging:
    it writes no file, forks nothing and never invokes [run()]; the
    only files it removes are the PID file and the configured lock
    file; and every signal it sends goes to the nonzero number read
    from the PID file. *)
Theorem stop_keeps_to_its_files
    (fuel : nat) (w w' : world) (r : result unit) (t : list event) :
  stop E d fuel w = (r, w') ->
  trace w' = t ++ trace w ->
  (forall p c, ~ In (EvWrite p c) t) /\
  (forall f, ~ In (EvFork f) t) /\
  ~ In EvRun t /\
  (forall path, In (EvRemove path) t ->
                path = pidfile d \/ lockfile d = Some path) /\
  (forall q f, In (EvKill q f) t ->
               exists c, fs (os w) !! pidfile d = Some c /\
                         Py.int (Py.strip c) = Some q /\ q <> 0).
Proof.
  intros Hstop Ht.
  destruct (stop_events fuel w w' r t Hstop Ht) as (p & Hall & Hpid).
  rewrite List.Forall_forall in Hall.
  repeat split.
  - intros p0 c0 Hin. exact (Hall _ Hin).
  - intros f Hin. exact (Hall _ Hin).
  - intros Hin. exact (Hall _ Hin).
  - intros path Hin. exact (Hall _ Hin).
  - intros q f Hin. pose proof (Hall _ Hin) as Hq. cbn in Hq. subst q.
    destruct Hpid as [Hpid | Hnokill]; [exact Hpid |].
    rewrite List.Forall_forall in Hnokill. specialize (Hnokill _ Hin).
    discriminate.
Qed.

Lemma find_other_errors (err : errno) :
  err <> ESRCH -> (0 <? Py.find (str_args err) "No such process") = false.
Proof. destruct err; intros H; try reflexivity. contradiction. Qed.

(** X2: when a signal [stop()] sent failed with anything but "No such
    process", [stop()] ends in the fatal error 1068, whose message is
    [str(err.args)] followed by " - PID file: " and the path; that log
    entry follows the failed signal at once, and no file is removed:
    the PID file and the lock file stay. *)
Theorem stop_fatal_on_refused_signal
    (fuel : nat) (w w' : world) (r : result unit) (t : list event)
    (p : Z) (err : errno) :
  stop E d fuel w = (r, w') ->
  trace w' = t ++ trace w ->
  In (EvKill p (Some err)) t ->
  err <> ESRCH ->
  r = Raise (Fatal 1068 (signal_message d err)) /\
  (exists t', t = EvLog Die 1068 (signal_message d err)
                  :: EvKill p (Some err) :: t') /\
  (forall path, ~ In (EvRemove path) t) /\
  signal_message d err = (str_args err +:+ " - PID file: ") +:+ pidfile d.
Proof.
  intros Hstop Ht Hin Herr.
  assert (Hmsg : signal_message d err
                 = (str_args err +:+ " - PID file: ") +:+ pidfile d)
    by (unfold signal_message; symmetry; apply append_assoc).
  destruct (stop_cases E d fuel w)
    as [(r1 & t1 & Heq & Hh & _) |
        (c & p0 & r0 & w1 & t1 & _ & _ & _ & Hlp & Ht1 & _ & Hout & _ & Heq)];
    rewrite Heq in Hstop.
  { injection Hstop as <- <-. cbn [trace] in Ht.
    apply app_inv_tail in Ht as <-.
    destruct (quiet_harmless t1 Hh p err Hin). }
  destruct (kill_loop_events fuel p0 (push (EvRead (pidfile d) true) w))
    as (tl & Htl & Hloop).
  rewrite Hlp in Htl. cbn [snd] in Htl. rewrite Ht1 in Htl.
  apply app_inv_tail in Htl as <-.
  rewrite List.Forall_forall in Hloop.
  destruct r0 as [[] | [err0 | | | |] |]; cbn [outcome] in Hout; try contradiction.
  - injection Hstop as <- <-. unfold stopped in Ht. cbn [push trace] in Ht.
    destruct (cleanup_trace d w1) as (tc & Htc & Hhk). rewrite Htc, Ht1 in Ht.
    name_trace Ht. exfalso.
    destruct Hin as [Hin | Hin]; [discriminate |].
    apply in_app_or in Hin as [Hin | Hin].
    + exact (quiet_harmless tc (housekeeping_harmless tc Hhk) p err Hin).
    + apply in_app_or in Hin as [Hin | [Hin | []]]; [| discriminate].
      exact (Hout p err Hin).
  - destruct Hout as (t1' & -> & Hq).
    destruct (0 <? Py.find (str_args err0) "No such process") eqn:Hfind.
    + injection Hstop as <- <-. unfold stopped in Ht. cbn [push trace] in Ht.
      destruct (cleanup_trace d (cleanup d w1)) as (tc2 & Htc2 & Hhk2).
      destruct (cleanup_trace d w1) as (tc1 & Htc1 & Hhk1).
      rewrite Htc2, Htc1, Ht1 in Ht. name_trace Ht. exfalso.
      destruct Hin as [Hin | Hin]; [discriminate |].
      apply in_app_or in Hin as [Hin | Hin].
      { exact (quiet_harmless tc2 (housekeeping_harmless tc2 Hhk2) p err Hin). }
      apply in_app_or in Hin as [Hin | Hin].
      { exact (quiet_harmless tc1 (housekeeping_harmless tc1 Hhk1) p err Hin). }
      destruct Hin as [Hin | Hin].
      { injection Hin as _ ->. rewrite (find_other_errors err Herr) in Hfind.
        discriminate. }
      apply in_app_or in Hin as [Hin | [Hin | []]]; [| discriminate].
      exact (Hq p err Hin).
    + injection Hstop as <- <-. cbn [push trace] in Ht. rewrite Ht1 in Ht.
      name_trace Ht.
      assert (Hsame : err0 = err /\ p0 = p).
      { destruct Hin as [Hin | [Hin | Hin]]; [discriminate | |].
        - injection Hin as -> ->. split; reflexivity.
        - apply in_app_or in Hin as [Hin | [Hin | []]]; [| discriminate].
          destruct (Hq p err Hin). }
      destruct Hsame as [-> ->].
      split; [reflexivity |]. split; [eauto |]. split; [| exact Hmsg].
      intros path [Hrm | [Hrm | Hrm]]; [discriminate | discriminate |].
      apply in_app_or in Hrm as [Hrm | [Hrm | []]]; [| discriminate].
      exact (Hloop _ (or_intror Hrm)).
  - destruct Hout as [_ Hq].
    injection Hstop as <- <-. cbn [push trace] in Ht. rewrite Ht1 in Ht.
    name_trace Ht. exfalso.
    destruct Hin as [Hin | Hin]; [discriminate |].
    apply in_app_or in Hin as [Hin | [Hin | []]]; [| discriminate].
    exact (Hq p err Hin).
  - injection Hstop as <- <-. rewrite Ht1 in Ht. name_trace Ht. exfalso.
    apply in_app_or in Hin as [Hin | [Hin | []]]; [| discriminate].
    exact (Hout p err Hin).
Qed.

(** X3: a PID file that holds the number 0 is "not running" for
    [stop()], which logs warning 1063 and returns without a signal,
    while [status()] on the same state reports the daemon as running.
    Neither changes the machine. *)
Theorem zero_pid_stop_and_status_disagree (fuel : nat) (w : world) (c : string) :
  fs (os w) !! pidfile d = Some c ->
  Py.int (Py.strip c) = Some 0 ->
  stop E d fuel w =
  (Ok tt,
   World (os w) (self w) (ticks w) (nforks w)
         (EvLog Warn 1063 (missing_message d)
          :: EvRead (pidfile d) true :: trace w)) /\
  status d w =
  (Ok tt,
   World (os w) (self w) (ticks w) (nforks w)
         (EvPrint "Daemon is running" :: EvExists (pidfile d) true :: trace w)).
Proof.
  intros Hc Hint. split; [exact (stop_zero_pid E d fuel w c Hc Hint) |].
  unfold status, bind, os_path_exists.
  rewrite bool_decide_true by (rewrite Hc; eauto). reflexivity.
Qed.

(** X4: in the process that [os.fork()] leaves as a parent (the caller
    of [start()] at the first fork, the session leader at the second),
    [start()] ends in [sys.exit(0)]: nothing is logged, no file is
    written, no exit hook is registered, [run()] is not invoked and the
    machine is as it was; the first parent has not even called
    [setsid]. *)
Theorem start_parents_exit_zero (w : world) (child : positive) :
  no_pid_recorded d w ->
  (fork_outcome E (nforks w) = ForkParent child \/
   exists c1, fork_outcome E (nforks w) = ForkChild c1 /\
              fork_outcome E (S (nforks w)) = ForkParent child) ->
  exists w' t,
    start E d w = (Raise (SystemExit 0), w') /\
    trace w' = t ++ trace w /\
    os w' = os w /\
    (forall p c, ~ In (EvWrite p c) t) /\
    (forall l c m, ~ In (EvLog l c m) t) /\
    ~ In EvAtexit t /\
    ~ In EvRun t /\
    (fork_outcome E (nforks w) = ForkParent child -> ~ In EvSetsid t).
Proof.
  intros Hpid Hfork.
  destruct (read_pid_falsy d w Hpid) as (found & p & Hread & Hp & _).
  rewrite (start_after_check E d w _ p Hread Hp). unfold bind at 1.
  set (w1 := push (EvRead (pidfile d) found) w).
  destruct Hfork as [H1 | (c1 & H1 & H2)].
  - rewrite (daemonize_fork1_parent E d w1 child H1).
    exists (after_fork (ForkParent child) w1),
           [EvFork (ForkParent child); EvRead (pidfile d) found].
    split; [reflexivity |]. split; [reflexivity |]. split; [reflexivity |].
    repeat split; intros; cbn [In] in *; intuition discriminate.
  - rewrite (daemonize_fork2_parent E d w1 c1 child H1 H2).
    eexists _, (EvFork (ForkParent child) :: detach_events
                ++ [EvFork (ForkChild c1); EvRead (pidfile d) found]).
    split; [reflexivity |]. split; [reflexivity |]. split; [reflexivity |].
    cbv [detach_events]. cbn [List.app].
    repeat split; intros; cbn [In] in *; try intuition discriminate.
    subst w1. cbn [push nforks] in H1. congruence.
Qed.

(** X5: when no PID is on record and both forks put the followed
    process on the child side, [start()] detaches, redirects the
    standard streams, registers the exit hook and opens the PID file
    for writing.  If the system lets it, [start()] goes all the way: it
    ends as [run()] ends, normally or not, in the process of the second
    fork, with the PID file holding that process's id, a newline after
    it, when [run()] starts.  If the [open] is refused, its [OSError]
    leaves [start()] uncaught: nothing is written, entry 1070 is not
    logged and [run()] is not invoked. *)
Theorem start_detaches_and_runs (w : world) (c1 me : positive) :
  no_pid_recorded d w ->
  fork_outcome E (nforks w) = ForkChild c1 ->
  fork_outcome E (S (nforks w)) = ForkChild me ->
  let m := Machine (<[pidfile d := Py.str (Z.pos me) +:+ nl]> (fs (os w)))
                   (procs (os w)) in
  exists found,
    let detached :=
      redirect_events ++ EvFork (ForkChild me)
      :: detach_events ++ EvFork (ForkChild c1)
      :: EvRead (pidfile d) found :: trace w in
    match open_failure E (os w) (pidfile d) with
    | None =>
        start E d w =
        (fst (payload E m),
         World (snd (payload E m)) me (ticks w) (S (S (nforks w)))
               (EvRun :: EvLog Quiet 1070 (started_message d)
                :: EvWrite (pidfile d) (Py.str (Z.pos me) +:+ nl)
                :: detached)) /\
        fs m !! pidfile d = Some (Py.str (Z.pos me) +:+ nl)
    | Some err =>
        start E d w =
        (Raise (OSError err),
         World (os w) me (ticks w) (S (S (nforks w)))
               (EvOpenFailed (pidfile d) err :: detached))
    end.
Proof.
  intros Hpid H1 H2 m.
  destruct (read_pid_falsy d w Hpid) as (found & p & Hread & Hp & _).
  exists found. cbv zeta.
  set (w1 := push (EvRead (pidfile d) found) w).
  change (open_failure E (os w) (pidfile d))
    with (open_failure E (os w1) (pidfile d)).
  destruct (open_failure E (os w1) (pidfile d)) as [err |] eqn:H3.
  - rewrite (start_after_check E d w _ p Hread Hp). unfold bind at 1.
    fold w1. rewrite (daemonize_unwritable E d w1 c1 me err H1 H2 H3). reflexivity.
  - split; [| apply lookup_insert_eq].
    rewrite (start_after_check E d w _ p Hread Hp). unfold bind at 1.
    fold w1. rewrite (daemonize_detached E d w1 c1 me H1 H2 H3).
    subst w1. unfold bind, log2quiet, emit, push, run.
    cbn [os self ticks nforks trace fs procs]. fold m.
    destruct (payload E m) as [r0 m0]. reflexivity.
Qed.

(** X6: in the state [daemonize()] returns in, the PID file reads back
    as the id of the process that returned: a [start()] there is
    refused with the fatal error 1062 and forks nothing, and a [stop()]
    there goes after exactly that id. *)
Theorem daemonize_records_own_pid (w w1 : world) :
  daemonize E d w = (Ok tt, w1) ->
  fs (os w1) !! pidfile d = Some (Py.str (Z.pos (self w1)) +:+ nl) /\
  read_pid d w1 =
  (Ok (Some (Z.pos (self w1))), push (EvRead (pidfile d) true) w1) /\
  start E d w1 =
  (Raise (Fatal 1062 (exists_message d)),
   push (EvLog Die 1062 (exists_message d)) (push (EvRead (pidfile d) true) w1)) /\
  (forall fuel,
      stop E d fuel w1 =
      terminate E d fuel (Z.pos (self w1)) (push (EvRead (pidfile d) true) w1)).
Proof.
  intros Hd.
  destruct (fork_outcome E (nforks w)) as [child | c1 | err] eqn:H1.
  { rewrite (daemonize_fork1_parent E d w child H1) in Hd. discriminate. }
  2: { rewrite (daemonize_fork1_error E d w err H1) in Hd. discriminate. }
  destruct (fork_outcome E (S (nforks w))) as [child | me | err] eqn:H2.
  { rewrite (daemonize_fork2_parent E d w c1 child H1 H2) in Hd. discriminate. }
  2: { rewrite (daemonize_fork2_error E d w c1 err H1 H2) in Hd. discriminate. }
  destruct (open_failure E (os w) (pidfile d)) as [err |] eqn:H3.
  { rewrite (daemonize_unwritable E d w c1 me err H1 H2 H3) in Hd. discriminate. }
  rewrite (daemonize_detached E d w c1 me H1 H2 H3) in Hd.
  injection Hd as <-. cbn [os fs self].
  assert (Hfs : <[pidfile d := Py.str (Z.pos me) +:+ nl]> (fs (os w)) !! pidfile d
                = Some (Py.str (Z.pos me) +:+ nl)) by apply lookup_insert_eq.
  destruct (int_strip_str_nl (Z.pos me) ltac:(lia)) as [Hint _].
  split; [exact Hfs |].
  match goal with |- read_pid d ?w0 = _ /\ _ =>
    pose proof (read_pid_parsed d w0 _ (Z.pos me) Hfs Hint) as Hread end.
  split; [exact Hread |]. split.
  - apply (start_refused E d _ _ _ Hread). reflexivity.
  - intros fuel.
    match goal with |- stop E d fuel ?w0 = _ =>
      apply (stop_with_pid E d fuel w0 _ (Z.pos me) Hfs Hint) end.
    discriminate.
Qed.

(** X7: whenever [stop()] returns normally it leaves no PID on record
    (the PID file is gone, or holds 0), so the [start()] that
    [restart()] runs next gets past its check and goes on to
    [daemonize()]: [restart()] never ends in "already exists". *)
Theorem restart_passes_pid_check (fuel : nat) (w w1 : world) :
  stop E d fuel w = (Ok tt, w1) ->
  no_pid_recorded d w1 /\
  restart E d fuel w = start E d w1 /\
  exists found,
    start E d w1 =
    (daemonize E d ;; log2quiet 1070 (started_message d) ;; run E)
      (push (EvRead (pidfile d) found) w1).
Proof.
  intros Hstop.
  assert (Hpid : no_pid_recorded d w1).
  { destruct (fs (os w) !! pidfile d) as [c |] eqn:Hc.
    2: { unfold stop, bind in Hstop. rewrite (read_pid_absent d w Hc) in Hstop.
         injection Hstop as <-. left. exact Hc. }
    destruct (Py.int (Py.strip c)) as [p |] eqn:Hint.
    2: { unfold stop, bind in Hstop. rewrite (read_pid_garbled d w c Hc Hint) in Hstop.
         discriminate. }
    destruct (Z.eq_dec p 0) as [-> | Hp].
    { rewrite (stop_zero_pid E d fuel w c Hc Hint) in Hstop.
      injection Hstop as <-. right. exists c. split; assumption. }
    destruct (kill_loop_run E d fuel p (push (EvRead (pidfile d) true) w))
      as (r0 & w2 & t1 & Hlp & _ & _ & _ & Hnok).
    rewrite (stop_with_pid E d fuel w c p Hc Hint Hp) in Hstop.
    rewrite (terminate_run E d fuel p _ w2 r0 Hlp) in Hstop.
    destruct r0 as [[] | [err | | | |] |]; try discriminate.
    - destruct Hnok. reflexivity.
    - destruct (0 <? Py.find (str_args err) "No such process"); [| discriminate].
      injection Hstop as <-. left. unfold stopped. cbn [push os].
      exact (proj1 (cleanup_files d (cleanup d w2))). }
  split; [exact Hpid |]. split.
  - unfold restart, bind. rewrite Hstop. reflexivity.
  - destruct (read_pid_falsy d w1 Hpid) as (found & p & Hread & Hp & _).
    exists found. apply (start_after_check E d w1 _ p Hread Hp).
Qed.

(** X8: after a [stop()] that ended with the log entry 1071 "Daemon
    Stopped", [status()] reports the daemon as stopped. *)
Theorem status_after_stop (fuel : nat) (w w1 : world) (t : list event) :
  stop E d fuel w = (Ok tt, w1) ->
  trace w1 = EvLog Quiet 1071 (stopped_message d) :: t ++ trace w ->
  status d w1 =
  (Ok tt,
   World (os w1) (self w1) (ticks w1) (nforks w1)
         (EvPrint "Daemon is stopped" :: EvExists (pidfile d) false :: trace w1)).
Proof.
  intros Hstop Ht.
  assert (Hgone : fs (os w1) !! pidfile d = None).
  { destruct (fs (os w) !! pidfile d) as [c |] eqn:Hc.
    2: { unfold stop, bind in Hstop. rewrite (read_pid_absent d w Hc) in Hstop.
         injection Hstop as <-. exact Hc. }
    destruct (Py.int (Py.strip c)) as [p |] eqn:Hint.
    2: { unfold stop, bind in Hstop. rewrite (read_pid_garbled d w c Hc Hint) in Hstop.
         discriminate. }
    destruct (Z.eq_dec p 0) as [-> | Hp].
    { rewrite (stop_zero_pid E d fuel w c Hc Hint) in Hstop.
      injection Hstop as <-. cbn [trace] in Ht. discriminate. }
    destruct (kill_loop_run E d fuel p (push (EvRead (pidfile d) true) w))
      as (r0 & w2 & t1 & Hlp & _ & _ & _ & Hnok).
    rewrite (stop_with_pid E d fuel w c p Hc Hint Hp) in Hstop.
    rewrite (terminate_run E d fuel p _ w2 r0 Hlp) in Hstop.
    destruct r0 as [[] | [err | | | |] |]; try discriminate.
    - destruct Hnok. reflexivity.
    - destruct (0 <? Py.find (str_args err) "No such process"); [| discriminate].
      injection Hstop as <-. unfold stopped. cbn [push os].
      exact (proj1 (cleanup_files d (cleanup d w2))). }
  unfold status, bind, os_path_exists.
  rewrite bool_decide_false by (rewrite Hgone; intros [? ?]; discriminate).
  reflexivity.
Qed.

(** X9: with no lock file configured, [stop()] on a PID file that names
    a process that is not there finishes in its first turn: one signal,
    which fails, no sleep, the PID file removed, log entry 1071, normal
    return, and nothing else changed. *)
Theorem stop_on_stale_pid_file (fuel : nat) (w : world) (c : string) (p : Z) :
  lockfile d = None ->
  fs (os w) !! pidfile d = Some c ->
  Py.int (Py.strip c) = Some p ->
  p <> 0 ->
  pid_t_range p = true ->
  procs (os w) !! p = None ->
  stop E d (S fuel) w =
  (Ok tt,
   World (Machine (delete (pidfile d) (fs (os w))) (procs (os w)))
         (self w) (ticks w) (nforks w)
         (EvLog Quiet 1071 (stopped_message d)
          :: EvExists (pidfile d) false
          :: EvRemove (pidfile d) :: EvExists (pidfile d) true
          :: EvKill p (Some ESRCH) :: EvRead (pidfile d) true :: trace w)).
Proof.
  intros Hl Hc Hint Hp Hr Hgone.
  rewrite (stop_with_pid E d (S fuel) w c p Hc Hint Hp).
  set (w0 := push (EvRead (pidfile d) true) w).
  assert (Hlp : kill_loop E d (S fuel) p w0
                = (Raise (OSError ESRCH), push (EvKill p (Some ESRCH)) w0)).
  { cbn [kill_loop]. unfold bind.
    rewrite (iteration_no_lock E d p w0 Hl), kill_then_sleep, Hr.
    subst w0. cbn [push os]. rewrite Hgone. reflexivity. }
  rewrite (terminate_run E d (S fuel) p w0 _ _ Hlp).
  change (0 <? Py.find (str_args ESRCH) "No such process") with true.
  cbv iota. unfold stopped, cleanup. rewrite Hl.
  set (w2 := push (EvKill p (Some ESRCH)) w0).
  assert (H1 : removal (pidfile d) w2 =
               World (Machine (delete (pidfile d) (fs (os w))) (procs (os w)))
                     (self w) (ticks w) (nforks w)
                     (EvRemove (pidfile d) :: EvExists (pidfile d) true :: trace w2)).
  { unfold removal. subst w2 w0. cbn [push os]. rewrite Hc. reflexivity. }
  rewrite H1. rewrite removal_absent by (cbn [os fs]; apply lookup_delete_eq).
  reflexivity.
Qed.

Lemma kill_loop_out_of_range (pid : Z) (fuel : nat) : forall w,
  pid_t_range pid = false ->
  exists r w1 t,
    kill_loop E d fuel pid w = (r, w1) /\
    trace w1 = t ++ trace w /\
    Forall (fun e => is_kill e = false) t /\
    (r = Spin \/ r = Raise OverflowError) /\
    (lockfile d = None -> fuel <> O -> r = Raise OverflowError /\ t = []).
Proof.
  intros w Hr. revert w.
  induction fuel as [| f IH]; intros w.
  - exists Spin, w, []. repeat split; auto. congruence.
  - cbn [kill_loop]. unfold bind.
    destruct (lockfile d) as [l |] eqn:Hl.
    + destruct (fs (others E (ticks w) (os w)) !! l) as [c |] eqn:Hfs.
      * rewrite (iteration_lock_held E d pid w l Hl) by (rewrite Hfs; eauto).
        destruct (IH (slept E w [EvExists l true]))
          as (r & w1 & t & Hlp & Ht & Hh & Hres & _).
        exists r, w1, (t ++ [EvExists l true; EvSleep]). rewrite Hlp.
        split; [reflexivity |].
        split; [rewrite Ht; cbn [slept trace]; rewrite <- List.app_assoc; reflexivity |].
        split; [apply Forall_app; split; [exact Hh | repeat constructor] |].
        split; [exact Hres | discriminate].
      * rewrite (iteration_lock_free E d pid w l Hl Hfs), kill_then_sleep, Hr.
        exists (Raise OverflowError), (slept E w [EvExists l false]),
               [EvExists l false; EvSleep].
        split; [reflexivity |]. split; [reflexivity |].
        split; [repeat constructor |]. split; [right; reflexivity | discriminate].
    + rewrite (iteration_no_lock E d pid w Hl), kill_then_sleep, Hr.
      exists (Raise OverflowError), w, [].
      split; [reflexivity |]. split; [reflexivity |].
      split; [constructor |]. split; [right; reflexivity | auto].
Qed.

(** X10: when the PID file holds a number outside the range of a C int,
    [os.kill] raises before anything is sent: [stop()] sends no signal
    and removes no file, and once it is past the lock file it ends in
    the fatal error 1066; with no lock file configured that is its
    first act after reading the PID file. *)
Theorem stop_fatal_on_oversized_pid
    (fuel : nat) (w w' : world) (r : result unit) (t : list event)
    (c : string) (p : Z) :
  fs (os w) !! pidfile d = Some c ->
  Py.int (Py.strip c) = Some p ->
  pid_t_range p = false ->
  stop E d fuel w = (r, w') ->
  trace w' = t ++ trace w ->
  (forall q f, ~ In (EvKill q f) t) /\
  (forall path, ~ In (EvRemove path) t) /\
  (r = Spin \/ r = Raise (Fatal 1066 (unknown_message d))) /\
  (lockfile d = None -> fuel <> O ->
   r = Raise (Fatal 1066 (unknown_message d)) /\
   t = [EvLog Die 1066 (unknown_message d); EvRead (pidfile d) true]).
Proof.
  intros Hc Hint Hr Hstop Ht.
  assert (Hp : p <> 0) by (intros ->; discriminate).
  set (w0 := push (EvRead (pidfile d) true) w) in *.
  destruct (kill_loop_out_of_range p fuel w0 Hr)
    as (r0 & w1 & t1 & Hlp & Ht1 & Hh & Hres & Hfirst).
  destruct (kill_loop_events fuel p w0) as (tl & Htl & Hloop).
  rewrite Hlp in Htl. cbn [snd] in Htl. rewrite Ht1 in Htl.
  apply app_inv_tail in Htl as <-.
  rewrite List.Forall_forall in Hh, Hloop.
  rewrite (stop_with_pid E d fuel w c p Hc Hint Hp) in Hstop.
  fold w0 in Hstop. rewrite (terminate_run E d fuel p w0 w1 r0 Hlp) in Hstop.
  subst w0. cbn [push trace] in Ht1.
  destruct Hres as [-> | ->].
  - injection Hstop as <- <-. rewrite Ht1 in Ht. name_trace Ht.
    split; [| split; [| split; [left; reflexivity |]]].
    + intros q f Hin. apply in_app_or in Hin as [Hin | [Hin | []]]; [| discriminate].
      specialize (Hh _ Hin). discriminate.
    + intros path Hin. apply in_app_or in Hin as [Hin | [Hin | []]]; [| discriminate].
      exact (Hloop _ Hin).
    + intros Hl Hf. destruct (Hfirst Hl Hf) as [Habs _]. discriminate.
  - injection Hstop as <- <-. cbn [push trace] in Ht. rewrite Ht1 in Ht.
    name_trace Ht.
    split; [| split; [| split; [right; reflexivity |]]].
    + intros q f [Hin | Hin]; [discriminate |].
      apply in_app_or in Hin as [Hin | [Hin | []]]; [| discriminate].
      specialize (Hh _ Hin). discriminate.
    + intros path [Hin | Hin]; [discriminate |].
      apply in_app_or in Hin as [Hin | [Hin | []]]; [| discriminate].
      exact (Hloop _ Hin).
    + intros Hl Hf. destruct (Hfirst Hl Hf) as [_ ->]. split; reflexivity.
Qed.

(** The loop gets out once nothing holds it any more. *)
Lemma kill_loop_ends (pid : Z) (fuel : nat) : forall (N : nat) (w : world),
  (forall n, (N <= n)%nat -> ~ busy d pid (drift E n (ticks w) (os w))) ->
  (N < fuel)%nat ->
  fst (kill_loop E d fuel pid w) <> Spin.
Proof.
  induction fuel as [| f IH]; intros N w Hfree Hfuel; [lia |].
  cbn [kill_loop]. unfold bind.
  assert (Hkill : forall w0 k,
    (k <= 1)%nat ->
    (forall n, (N - k <= n)%nat -> ~ busy d pid (drift E n (ticks w0) (os w0))) ->
    fst (match (os_kill pid ;; time_sleep E) w0 with
         | (Ok _, w') => kill_loop E d f pid w'
         | (Raise e, w') => (Raise e, w')
         | (Spin, w') => (Spin, w')
         end) <> Spin).
  { intros w0 k Hk Hfree0. rewrite kill_then_sleep.
    destruct (pid_t_range pid) eqn:Hr; [| discriminate].
    destruct (procs (os w0) !! pid) as [[|] |] eqn:Hp; try discriminate.
    destruct (Nat.eq_dec (N - k)%nat 0%nat) as [Hz | Hnz].
    - destruct (Hfree0 0%nat ltac:(lia)). right. split; assumption.
    - apply (IH (N - k - 1)%nat); [| lia].
      intros n Hn. cbn [slept push os ticks].
      exact (Hfree0 (S n) ltac:(lia)). }
  destruct (lockfile d) as [l |] eqn:Hl.
  - destruct (fs (others E (ticks w) (os w)) !! l) as [c |] eqn:Hfs.
    + rewrite (iteration_lock_held E d pid w l Hl) by (rewrite Hfs; eauto).
      assert (HN : (1 < N)%nat).
      { destruct (le_lt_dec N 1) as [Hle |]; [| assumption].
        destruct (Hfree 1%nat Hle). left. exists l. split; [exact Hl |].
        cbn [drift]. rewrite Hfs. eauto. }
      apply (IH (N - 1)%nat); [| lia].
      intros n Hn. cbn [slept os ticks]. exact (Hfree (S n) ltac:(lia)).
    + rewrite (iteration_lock_free E d pid w l Hl Hfs).
      apply (Hkill _ 1%nat); [lia |].
      intros n Hn. cbn [slept os ticks]. exact (Hfree (S n) ltac:(lia)).
  - rewrite (iteration_no_lock E d pid w Hl).
    apply (Hkill w 0%nat); [lia |].
    intros n Hn. exact (Hfree n ltac:(lia)).
Qed.

Lemma stop_out_of_loop (fuel : nat) (w : world) :
  (forall c p,
      fs (os w) !! pidfile d = Some c -> Py.int (Py.strip c) = Some p ->
      fst (kill_loop E d fuel p (push (EvRead (pidfile d) true) w)) <> Spin) ->
  fst (stop E d fuel w) <> Spin.
Proof.
  intros Hend.
  destruct (stop_cases E d fuel w)
    as [(r1 & t1 & Heq & _ & Hns & _) |
        (c & p & r0 & w1 & t1 & Hc & Hint & _ & Hlp & _ & _ & _ & _ & Heq)];
    rewrite Heq.
  - exact Hns.
  - specialize (Hend c p Hc Hint). rewrite Hlp in Hend. cbn [fst] in Hend.
    destruct r0 as [[] | [err | | | |] |]; try discriminate.
    + destruct (0 <? Py.find (str_args err) "No such process"); discriminate.
    + destruct Hend. reflexivity.
Qed.

(** X11: [stop()] does come to an end once nothing holds it: if from
    the [N]-th sleep on the lock file is away and the target is no
    longer there to be signalled, then more than [N] turns of its loop
    are never needed, whatever the PID file holds. *)
Theorem stop_ends_once_free (N fuel : nat) (w : world) :
  (forall c p n,
      fs (os w) !! pidfile d = Some c -> Py.int (Py.strip c) = Some p ->
      (N <= n)%nat -> ~ busy d p (drift E n (ticks w) (os w))) ->
  (N < fuel)%nat ->
  fst (stop E d fuel w) <> Spin.
Proof.
  intros Hfree Hfuel. apply stop_out_of_loop. intros c p Hc Hint.
  apply (kill_loop_ends p fuel N); [| exact Hfuel].
  intros n Hn. exact (Hfree c p n Hc Hint Hn).
Qed.

Lemma drift_never_creates (l : string) (n : nat) : forall k m,
  never_creates E l -> fs m !! l = None -> fs (drift E n k m) !! l = None.
Proof.
  induction n as [| n IH]; intros k m Hnc Hm; [exact Hm |].
  cbn [drift]. apply IH; [exact Hnc | apply Hnc, Hm].
Qed.

(** X12: [force()] does not wait on a stale lock: with a lock file
    configured that nobody else creates, [force()] ends within [N]
    turns after the process named in the PID file has stopped accepting
    signals at the [N]-th sleep, whether or not the lock file was there
    when [force()] was called. *)
Theorem force_ends_despite_lock (N fuel : nat) (w : world) (l : string) :
  lockfile d = Some l ->
  never_creates E l ->
  (forall c p n,
      delete l (fs (os w)) !! pidfile d = Some c ->
      Py.int (Py.strip c) = Some p ->
      (N <= n)%nat ->
      procs (drift E n (ticks w)
               (Machine (delete l (fs (os w))) (procs (os w)))) !! p <> Some true) ->
  (N < fuel)%nat ->
  fst (force E d fuel w) <> Spin.
Proof.
  intros Hl Hnc Hgone Hfuel.
  unfold force, bind. rewrite dellock_removal, Hl.
  apply stop_out_of_loop. intros c p Hc Hint.
  apply (kill_loop_ends p fuel N); [| exact Hfuel].
  cbn [push os ticks]. revert c p Hc Hint.
  assert (Hos : os (removal l w)
                = Machine (delete l (fs (os w))) (procs (os w))).
  { unfold removal. destruct (fs (os w) !! l) eqn:Hfs; cbn [os push]; [reflexivity |].
    destruct (os w) as [f0 p0]. cbn [fs procs] in *.
    rewrite delete_id by exact Hfs. reflexivity. }
  assert (Hticks : ticks (removal l w) = ticks w).
  { unfold removal. destruct (fs (os w) !! l); reflexivity. }
  rewrite Hos, Hticks. cbn [fs].
  intros c p Hc Hint n Hn [(l' & Hl' & Hsome) | [_ Hp]].
  - rewrite Hl in Hl'. injection Hl' as <-.
    rewrite (drift_never_creates l n _ _ Hnc) in Hsome.
    + destruct Hsome; discriminate.
    + cbn [fs]. apply lookup_delete_eq.
  - exact (Hgone c p n Hc Hint Hn Hp).
Qed.

End Further.

(** ** The further properties on concrete machines *)

Lemma stop_keeps_to_its_files_witness :
  (forall path,
      In (EvRemove path)
         (trace (snd (stop release_env locking_daemon 10 working_world))) ->
      path = pid_path \/ Some lock_path = Some path) /\
  (forall q f,
      In (EvKill q f)
         (trace (snd (stop release_env locking_daemon 10 working_world))) ->
      q = 77).
Proof.
  destruct (stop_keeps_to_its_files release_env locking_daemon 10 working_world
              _ _ _ (surjective_pairing _) (eq_sym (app_nil_r _)))
    as (_ & _ & _ & Hrm & Hkill).
  split; [exact Hrm |].
  intros q f Hin. destruct (Hkill q f Hin) as (c & Hc & Hint & _).
  vm_compute in Hc. injection Hc as <-.
  vm_compute in Hint. injection Hint as <-. reflexivity.
Defined.

Lemma stop_fatal_on_refused_signal_witness :
  In (EvKill 77 (Some EPERM))
     (trace (snd (stop still_env plain_daemon 3 foreign_world))) /\
  EPERM <> ESRCH /\
  fst (stop still_env plain_daemon 3 foreign_world)
  = Raise (Fatal 1068 (signal_message plain_daemon EPERM)) /\
  fs (os (snd (stop still_env plain_daemon 3 foreign_world))) !! pid_path
  = Some ("77" +:+ nl).
Proof.
  assert (Hin : In (EvKill 77 (Some EPERM))
                   (trace (snd (stop still_env plain_daemon 3 foreign_world))))
    by (vm_compute; auto 20).
  split; [exact Hin |]. split; [discriminate |].
  destruct (stop_fatal_on_refused_signal still_env plain_daemon 3 foreign_world
              _ _ _ 77 EPERM (surjective_pairing _) (eq_sym (app_nil_r _)) Hin
              ltac:(discriminate))
    as (Hr & _).
  split; [exact Hr | reflexivity].
Defined.

Lemma zero_pid_stop_and_status_disagree_witness :
  fs (os zero_world) !! pidfile plain_daemon = Some ("0" +:+ nl) /\
  Py.int (Py.strip ("0" +:+ nl)) = Some 0 /\
  fst (stop still_env plain_daemon 3 zero_world) = Ok tt /\
  In (EvPrint "Daemon is running") (trace (snd (status plain_daemon zero_world))).
Proof.
  split; [reflexivity |]. split; [reflexivity |].
  destruct (zero_pid_stop_and_status_disagree still_env plain_daemon 3 zero_world
              ("0" +:+ nl) eq_refl eq_refl) as [-> ->].
  split; [reflexivity | left; reflexivity].
Defined.

Lemma start_parents_exit_zero_witness :
  no_pid_recorded plain_daemon empty_world /\
  fork_outcome first_parent_env 0 = ForkParent 4000 /\
  fork_outcome second_parent_env 0 = ForkChild 4000 /\
  fork_outcome second_parent_env 1 = ForkParent 4001 /\
  fst (start first_parent_env plain_daemon empty_world) = Raise (SystemExit 0) /\
  fst (start second_parent_env plain_daemon empty_world) = Raise (SystemExit 0).
Proof.
  assert (Hpid : no_pid_recorded plain_daemon empty_world) by (left; reflexivity).
  split; [exact Hpid |]. do 3 (split; [reflexivity |]). split.
  - destruct (start_parents_exit_zero first_parent_env plain_daemon empty_world
                4000 Hpid (or_introl eq_refl)) as (w' & t & -> & _).
    reflexivity.
  - destruct (start_parents_exit_zero second_parent_env plain_daemon empty_world
                4001 Hpid
                (or_intror (ex_intro _ 4000%positive (conj eq_refl eq_refl))))
      as (w' & t & -> & _).
    reflexivity.
Defined.

Lemma start_detaches_and_runs_witness :
  no_pid_recorded plain_daemon empty_world /\
  fork_outcome still_env 0 = ForkChild 4000 /\
  fork_outcome still_env 1 = ForkChild 4001 /\
  open_failure still_env (os empty_world) pid_path = None /\
  fst (start still_env plain_daemon empty_world) = Ok tt /\
  self (snd (start still_env plain_daemon empty_world)) = 4001%positive /\
  fork_outcome unwritable_env 0 = ForkChild 4000 /\
  fork_outcome unwritable_env 1 = ForkChild 4001 /\
  open_failure unwritable_env (os empty_world) pid_path = Some ENOENT /\
  fst (start unwritable_env plain_daemon empty_world) = Raise (OSError ENOENT) /\
  ~ In EvRun (trace (snd (start unwritable_env plain_daemon empty_world))).
Proof.
  assert (Hpid : no_pid_recorded plain_daemon empty_world) by (left; reflexivity).
  split; [exact Hpid |]. do 3 (split; [reflexivity |]).
  destruct (start_detaches_and_runs still_env plain_daemon empty_world 4000 4001
              Hpid eq_refl eq_refl) as (found & Hrun).
  change (open_failure still_env (os empty_world) (pidfile plain_daemon))
    with (@None errno) in Hrun.
  cbv iota zeta in Hrun. destruct Hrun as [-> _].
  do 2 (split; [reflexivity |]). do 3 (split; [reflexivity |]).
  destruct (start_detaches_and_runs unwritable_env plain_daemon empty_world 4000 4001
              Hpid eq_refl eq_refl) as (found' & Hfail).
  change (open_failure unwritable_env (os empty_world) (pidfile plain_daemon))
    with (Some ENOENT) in Hfail.
  cbv iota zeta in Hfail. rewrite Hfail.
  split; [reflexivity |].
  cbv [redirect_events detach_events]. cbn [snd trace List.app In].
  intros Hin. repeat (destruct Hin as [Hin | Hin]; [discriminate Hin |]).
  exact Hin.
Defined.

Lemma daemonize_records_own_pid_witness :
  fst (daemonize still_env plain_daemon empty_world) = Ok tt /\
  fst (start still_env plain_daemon (snd (daemonize still_env plain_daemon empty_world)))
  = Raise (Fatal 1062 (exists_message plain_daemon)).
Proof.
  split; [reflexivity |].
  destruct (daemonize_records_own_pid still_env plain_daemon empty_world
              (snd (daemonize still_env plain_daemon empty_world))
              (surjective_pairing _)) as (_ & _ & -> & _).
  reflexivity.
Defined.

Lemma restart_passes_pid_check_witness :
  fst (stop release_env locking_daemon 10 working_world) = Ok tt /\
  no_pid_recorded locking_daemon
    (snd (stop release_env locking_daemon 10 working_world)) /\
  restart release_env locking_daemon 10 working_world
  = start release_env locking_daemon
      (snd (stop release_env locking_daemon 10 working_world)).
Proof.
  assert (Hstop : stop release_env locking_daemon 10 working_world
                  = (Ok tt, snd (stop release_env locking_daemon 10 working_world)))
    by (vm_compute; reflexivity).
  split; [rewrite Hstop at 1; reflexivity |].
  destruct (restart_passes_pid_check release_env locking_daemon 10 working_world
              _ Hstop) as (Hpid & Hre & _).
  split; [exact Hpid | exact Hre].
Defined.

Lemma status_after_stop_witness :
  fst (stop release_env locking_daemon 10 working_world) = Ok tt /\
  In (EvPrint "Daemon is stopped")
     (trace (snd (status locking_daemon
                    (snd (stop release_env locking_daemon 10 working_world))))).
Proof.
  assert (Hstop : stop release_env locking_daemon 10 working_world
                  = (Ok tt, snd (stop release_env locking_daemon 10 working_world)))
    by (vm_compute; reflexivity).
  split; [rewrite Hstop at 1; reflexivity |].
  rewrite (status_after_stop release_env locking_daemon 10 working_world _
             (List.tl (trace (snd (stop release_env locking_daemon 10 working_world))))
             Hstop ltac:(vm_compute; reflexivity)).
  left. reflexivity.
Defined.

Lemma stop_on_stale_pid_file_witness :
  lockfile plain_daemon = None /\
  procs (os stale_world) !! 77 = None /\
  fst (stop still_env plain_daemon 1 stale_world) = Ok tt /\
  fs (os (snd (stop still_env plain_daemon 1 stale_world))) !! pid_path = None.
Proof.
  split; [reflexivity |]. split; [reflexivity |].
  rewrite (stop_on_stale_pid_file still_env plain_daemon 0 stale_world
             ("77" +:+ nl) 77 eq_refl eq_refl eq_refl ltac:(discriminate)
             eq_refl eq_refl).
  split; reflexivity.
Defined.

Lemma stop_fatal_on_oversized_pid_witness :
  Py.int (Py.strip ("99999999999" +:+ nl)) = Some 99999999999 /\
  pid_t_range 99999999999 = false /\
  fst (stop still_env plain_daemon 3 oversized_world)
  = Raise (Fatal 1066 (unknown_message plain_daemon)) /\
  forall q f, ~ In (EvKill q f)
                   (trace (snd (stop still_env plain_daemon 3 oversized_world))).
Proof.
  split; [reflexivity |]. split; [reflexivity |].
  destruct (stop_fatal_on_oversized_pid still_env plain_daemon 3 oversized_world
              _ _ _ ("99999999999" +:+ nl) 99999999999
              eq_refl eq_refl eq_refl (surjective_pairing _) (eq_sym (app_nil_r _)))
    as (Hnokill & _ & _ & Hfirst).
  split; [| exact Hnokill].
  exact (proj1 (Hfirst eq_refl ltac:(discriminate))).
Defined.

Lemma stop_ends_once_free_witness :
  (forall c p n,
      fs (os stale_world) !! pidfile plain_daemon = Some c ->
      Py.int (Py.strip c) = Some p ->
      (0 <= n)%nat ->
      ~ busy plain_daemon p (drift still_env n (ticks stale_world) (os stale_world))) /\
  fst (stop still_env plain_daemon 1 stale_world) <> Spin.
Proof.
  assert (Hfree : forall c p n,
      fs (os stale_world) !! pidfile plain_daemon = Some c ->
      Py.int (Py.strip c) = Some p ->
      (0 <= n)%nat ->
      ~ busy plain_daemon p (drift still_env n (ticks stale_world) (os stale_world))).
  { intros c p n _ _ _. rewrite drift_still.
    intros [(l & Hl & _) | [_ Hp]]; discriminate. }
  split; [exact Hfree |].
  apply (stop_ends_once_free still_env plain_daemon 0 1 stale_world Hfree).
  constructor.
Defined.

Lemma force_ends_despite_lock_witness :
  lockfile locking_daemon = Some lock_path /\
  is_Some (fs (os stuck_world) !! lock_path) /\
  never_creates still_env lock_path /\
  fst (force still_env locking_daemon 1 stuck_world) <> Spin /\
  (forall fuel, fst (stop still_env locking_daemon fuel stuck_world) = Spin).
Proof.
  split; [reflexivity |]. split; [exists EmptyString; reflexivity |].
  assert (Hnc : never_creates still_env lock_path) by (intros k m H; exact H).
  split; [exact Hnc |]. split.
  - apply (force_ends_despite_lock still_env locking_daemon 0 1 stuck_world
             lock_path eq_refl Hnc); [| constructor].
    intros c p n _ _ _. rewrite drift_still. discriminate.
  - intros fuel.
    destruct (kill_loop_spins still_env locking_daemon 77 fuel
                (push (EvRead (pidfile locking_daemon) true) stuck_world))
      as (w1 & Hlp).
    { intros n. rewrite drift_still. left. exists lock_path.
      split; [reflexivity | exists EmptyString; reflexivity]. }
    rewrite (stop_with_pid still_env locking_daemon fuel stuck_world
               ("77" +:+ nl) 77 eq_refl eq_refl ltac:(discriminate)).
    rewrite (terminate_run still_env locking_daemon fuel 77 _ w1 Spin Hlp).
    reflexivity.
Defined.
